(** * Paystack webhook dispatcher: a shallow embedding of [src/server.js]

    The dispatcher receives one webhook stream from the payment provider,
    checks the provider's signature, asks every enabled ticketing system
    whether it owns the payment reference, and relays the event to the
    first system that does.

    [src/server.js] holds two revisions of the server: the instrumented
    one (request ids, logger, per-system timeouts, [id] fields) and the
    plain one it grew from.  Both are embedded, in [Module Server] and
    [Module PlainServer]; a route [app.post(path, ...)] is named after
    its method and path.  The logger module is a sink: its calls are
    events of the trace.  [src/routes/webhooks.js] only mounts a
    controller that is not part of the sources.

    Layout: the data and the functions first (node's [crypto] HMAC, JSON
    values with [JSON.parse] / [JSON.stringify], axios' settling rule,
    [Promise.all], then the two servers, the health, listing and test
    routes, and sample inputs), the results afterwards. *)

From Stdlib Require Import ZArith Lia Ascii String List DecimalString.
From stdpp Require Import base tactics option list strings.
Import ListNotations.
Local Open Scope string_scope.
Local Open Scope list_scope.
Local Open Scope Z_scope.

(** ** node:crypto -- HMAC with SHA-512 (FIPS 180-4, RFC 2104)

    [crypto.createHmac('sha512', key).update(text).digest('hex')].
    Words are 64-bit integers kept in [Z] with the wrap-around written
    out; octets are [Z] in [0, 256). *)
Module Crypto.

Definition wordmask : Z := 0xffffffffffffffff.
Definition w64 (x : Z) : Z := Z.land x wordmask.
Definition add64 (x y : Z) : Z := w64 (x + y).
Definition rotr (n x : Z) : Z :=
  Z.lor (Z.shiftr x n) (w64 (Z.shiftl x (64 - n))).
Definition shr (n x : Z) : Z := Z.shiftr x n.

Definition Ch (x y z : Z) : Z :=
  Z.lxor (Z.land x y) (Z.land (Z.lxor x wordmask) z).
Definition Maj (x y z : Z) : Z :=
  Z.lxor (Z.lxor (Z.land x y) (Z.land x z)) (Z.land y z).
Definition bigsigma0 (x : Z) : Z :=
  Z.lxor (Z.lxor (rotr 28 x) (rotr 34 x)) (rotr 39 x).
Definition bigsigma1 (x : Z) : Z :=
  Z.lxor (Z.lxor (rotr 14 x) (rotr 18 x)) (rotr 41 x).
Definition smallsigma0 (x : Z) : Z :=
  Z.lxor (Z.lxor (rotr 1 x) (rotr 8 x)) (shr 7 x).
Definition smallsigma1 (x : Z) : Z :=
  Z.lxor (Z.lxor (rotr 19 x) (rotr 61 x)) (shr 6 x).

Definition round_constants : list Z :=
  [ 0x428a2f98d728ae22; 0x7137449123ef65cd; 0xb5c0fbcfec4d3b2f; 0xe9b5dba58189dbbc;
    0x3956c25bf348b538; 0x59f111f1b605d019; 0x923f82a4af194f9b; 0xab1c5ed5da6d8118;
    0xd807aa98a3030242; 0x12835b0145706fbe; 0x243185be4ee4b28c; 0x550c7dc3d5ffb4e2;
    0x72be5d74f27b896f; 0x80deb1fe3b1696b1; 0x9bdc06a725c71235; 0xc19bf174cf692694;
    0xe49b69c19ef14ad2; 0xefbe4786384f25e3; 0x0fc19dc68b8cd5b5; 0x240ca1cc77ac9c65;
    0x2de92c6f592b0275; 0x4a7484aa6ea6e483; 0x5cb0a9dcbd41fbd4; 0x76f988da831153b5;
    0x983e5152ee66dfab; 0xa831c66d2db43210; 0xb00327c898fb213f; 0xbf597fc7beef0ee4;
    0xc6e00bf33da88fc2; 0xd5a79147930aa725; 0x06ca6351e003826f; 0x142929670a0e6e70;
    0x27b70a8546d22ffc; 0x2e1b21385c26c926; 0x4d2c6dfc5ac42aed; 0x53380d139d95b3df;
    0x650a73548baf63de; 0x766a0abb3c77b2a8; 0x81c2c92e47edaee6; 0x92722c851482353b;
    0xa2bfe8a14cf10364; 0xa81a664bbc423001; 0xc24b8b70d0f89791; 0xc76c51a30654be30;
    0xd192e819d6ef5218; 0xd69906245565a910; 0xf40e35855771202a; 0x106aa07032bbd1b8;
    0x19a4c116b8d2d0c8; 0x1e376c085141ab53; 0x2748774cdf8eeb99; 0x34b0bcb5e19b48a8;
    0x391c0cb3c5c95a63; 0x4ed8aa4ae3418acb; 0x5b9cca4f7763e373; 0x682e6ff3d6b2b8a3;
    0x748f82ee5defb2fc; 0x78a5636f43172f60; 0x84c87814a1f0ab72; 0x8cc702081a6439ec;
    0x90befffa23631e28; 0xa4506cebde82bde9; 0xbef9a3f7b2c67915; 0xc67178f2e372532b;
    0xca273eceea26619c; 0xd186b8c721c0c207; 0xeada7dd6cde0eb1e; 0xf57d4f7fee6ed178;
    0x06f067aa72176fba; 0x0a637dc5a2c898a6; 0x113f9804bef90dae; 0x1b710b35131c471b;
    0x28db77f523047d84; 0x32caab7b40c72493; 0x3c9ebe0a15c9bebc; 0x431d67c49c100d4c;
    0x4cc5d4becb3e42b6; 0x597f299cfc657e2a; 0x5fcb6fab3ad6faec; 0x6c44198c4a475817 ].

(** The eight working variables a..h, also the chaining value. *)
Record hstate := HState
  { ha : Z; hb : Z; hc : Z; hd : Z; he : Z; hf : Z; hg : Z; hh : Z }.

Definition initial_hash : hstate :=
  HState 0x6a09e667f3bcc908 0xbb67ae8584caa73b 0x3c6ef372fe94f82b
         0xa54ff53a5f1d36f1 0x510e527fade682d1 0x9b05688c2b3e6c1f
         0x1f83d9abfb41bd6b 0x5be0cd19137e2179.

(** Big-endian packing of octets into a word and back. *)
Definition be_word (bs : list Z) : Z :=
  fold_left (fun acc b => acc * 256 + b) bs 0.

Fixpoint be_octets (n : nat) (x : Z) : list Z :=
  match n with
  | O => []
  | S k => be_octets k (Z.shiftr x 8) ++ [Z.land x 255]
  end.

Fixpoint chunks {A} (size : nat) (count : nat) (l : list A) : list (list A) :=
  match count with
  | O => []
  | S k => firstn size l :: chunks size k (skipn size l)
  end.

(** Message schedule.  [recent] holds the words computed so far, the
    latest first, so W(t-2), W(t-7), W(t-15), W(t-16) sit at positions
    1, 6, 14, 15. *)
Definition next_schedule_word (recent : list Z) : Z :=
  add64 (add64 (smallsigma1 (nth 1 recent 0)) (nth 6 recent 0))
        (add64 (smallsigma0 (nth 14 recent 0)) (nth 15 recent 0)).

Fixpoint extend_schedule (n : nat) (recent : list Z) : list Z :=
  match n with
  | O => recent
  | S k => extend_schedule k (next_schedule_word recent :: recent)
  end.

Definition schedule (block : list Z) : list Z :=
  rev (extend_schedule 64 (rev (map be_word (chunks 8 16 block)))).

Definition round (s : hstate) (kw : Z * Z) : hstate :=
  let t1 := add64 (add64 (add64 (hh s) (bigsigma1 (he s)))
                         (add64 (Ch (he s) (hf s) (hg s)) (fst kw)))
                  (snd kw) in
  let t2 := add64 (bigsigma0 (ha s)) (Maj (ha s) (hb s) (hc s)) in
  HState (add64 t1 t2) (ha s) (hb s) (hc s)
         (add64 (hd s) t1) (he s) (hf s) (hg s).

Definition compress (h : hstate) (block : list Z) : hstate :=
  let s := fold_left round (combine round_constants (schedule block)) h in
  HState (add64 (ha h) (ha s)) (add64 (hb h) (hb s))
         (add64 (hc h) (hc s)) (add64 (hd h) (hd s))
         (add64 (he h) (he s)) (add64 (hf h) (hf s))
         (add64 (hg h) (hg s)) (add64 (hh h) (hh s)).

(** Padding: a one bit, zeros up to 112 mod 128 octets, then the bit
    length as a 128-bit big-endian number. *)
Definition pad (msg : list Z) : list Z :=
  let len := Z.of_nat (length msg) in
  let zeros := Z.to_nat ((111 - len) mod 128) in
  msg ++ [128] ++ repeat 0 zeros ++ be_octets 16 (len * 8).

Definition digest_octets (h : hstate) : list Z :=
  flat_map (be_octets 8)
           [ha h; hb h; hc h; hd h; he h; hf h; hg h; hh h].

Definition sha512 (msg : list Z) : list Z :=
  let padded := pad msg in
  digest_octets
    (fold_left compress (chunks 128 (length padded / 128) padded) initial_hash).

Definition block_size : nat := 128.

Definition hmac_key_block (key : list Z) : list Z :=
  let k := if (block_size <? length key)%nat then sha512 key else key in
  k ++ repeat 0 (block_size - length k).

Definition hmac_sha512 (key msg : list Z) : list Z :=
  let kb := hmac_key_block key in
  sha512 (map (Z.lxor 0x5c) kb ++ sha512 (map (Z.lxor 0x36) kb ++ msg)).

(** ['hex'] output encoding: two lowercase digits per octet. *)
Definition hex_digit (n : Z) : ascii :=
  match String.get (Z.to_nat n) "0123456789abcdef" with
  | Some c => c
  | None => "0"%char
  end.

Definition hex_octet (b : Z) : string :=
  String (hex_digit (Z.shiftr b 4)) (String (hex_digit (Z.land b 15)) EmptyString).

Definition hex (bs : list Z) : string :=
  fold_right (fun b acc => hex_octet b +:+ acc) "" bs.

(** Text is hashed as its octets (the strings of this development are
    octet strings, the UTF-8 form node hashes). *)
Definition octets_of (s : string) : list Z :=
  map (fun c => Z.of_N (N_of_ascii c)) (list_ascii_of_string s).

Definition createHmac_sha512_hex (key text : string) : string :=
  hex (hmac_sha512 (octets_of key) (octets_of text)).

End Crypto.

(** ** JSON values, [JSON.parse] and [JSON.stringify]

    Request bodies, response bodies and the fields of a registry entry
    are JavaScript values that came out of JSON.  Numbers are the
    integers a double holds exactly; text is an octet string.
    [undefined] is not a JSON value: a possibly-undefined JavaScript
    value is an [option json]. *)
Module Json.

#[warnings="-register-all"]
Inductive json : Type :=
| JNull
| JBool (b : bool)
| JNum (n : Z)
| JStr (s : string)
| JArr (items : list json)
| JObj (fields : list (string * json)).

(** [None] is [undefined]. *)
Definition value : Type := option json.

(** A number as JavaScript writes it: the decimal digits.  That is
    what [String(n)] gives for the integers a double holds exactly
    (up to 2^53 in size), which are the numbers of this development;
    beyond them JavaScript rounds, and from 1e21 on it writes an
    exponent. *)
Definition decimal (n : Z) : string := NilZero.string_of_int (Z.to_int n).

Definition dquote : ascii := "034"%char.
Definition backslash : ascii := "092"%char.

(** Boolean coercion, as in [!x], [x || y] and [if (x)]. *)
Definition truthy (v : json) : bool :=
  match v with
  | JNull => false
  | JBool b => b
  | JNum n => negb (n =? 0)
  | JStr s => negb (String.eqb s "")
  | JArr _ | JObj _ => true
  end.

Definition truthy_value (v : value) : bool :=
  match v with Some j => truthy j | None => false end.

(** [a || b] *)
Definition or_else (a : value) (b : json) : json :=
  match a with
  | Some j => if truthy j then j else b
  | None => b
  end.

(** String coercion, as in a template literal. *)
Fixpoint ToString (v : json) : string :=
  match v with
  | JNull => "null"
  | JBool true => "true"
  | JBool false => "false"
  | JNum n => decimal n
  | JStr s => s
  | JArr items =>
      (fix join (l : list json) : string :=
         match l with
         | [] => ""
         | x :: rest =>
             let e := match x with JNull => "" | _ => ToString x end in
             match rest with
             | [] => e
             | _ :: _ => e +:+ "," +:+ join rest
             end
         end) items
  | JObj _ => "[object Object]"
  end.

Definition ToString_value (v : value) : string :=
  match v with Some j => ToString j | None => "undefined" end.

(** Property read [o.k] on a non-nullish value; only objects carry the
    properties read in this program. *)
Fixpoint lookup_field (k : string) (fields : list (string * json)) : value :=
  match fields with
  | [] => None
  | (k', v) :: rest => if String.eqb k k' then Some v else lookup_field k rest
  end.

Definition prop (k : string) (v : json) : value :=
  match v with
  | JObj fields => lookup_field k fields
  | _ => None
  end.

(** Optional chaining [v?.k]: [undefined] and [null] give [undefined]. *)
Definition opt_prop (k : string) (v : value) : value :=
  match v with
  | None | Some JNull => None
  | Some j => prop k j
  end.

(** An object literal whose [undefined] properties are dropped, which
    is how [res.json] and the logger write them. *)
Definition object_of (fields : list (string * value)) : json :=
  JObj (omap (fun kv => match snd kv with
                        | Some j => Some (fst kv, j)
                        | None => None
                        end) fields).

(** *** [JSON.stringify] *)

Definition hex4 (n : Z) : string :=
  String (Crypto.hex_digit (Z.land (Z.shiftr n 12) 15))
 (String (Crypto.hex_digit (Z.land (Z.shiftr n 8) 15))
 (String (Crypto.hex_digit (Z.land (Z.shiftr n 4) 15))
 (String (Crypto.hex_digit (Z.land n 15)) EmptyString))).

Definition code (c : ascii) : Z := Z.of_N (N_of_ascii c).

Definition escape_char (c : ascii) : string :=
  let n := code c in
  if n =? 34 then String backslash (String dquote EmptyString)
  else if n =? 92 then String backslash (String backslash EmptyString)
  else if n =? 8 then String backslash "b"
  else if n =? 12 then String backslash "f"
  else if n =? 10 then String backslash "n"
  else if n =? 13 then String backslash "r"
  else if n =? 9 then String backslash "t"
  else if n <? 32 then String backslash ("u" +:+ hex4 n)
  else String c EmptyString.

Fixpoint escape (s : string) : string :=
  match s with
  | EmptyString => EmptyString
  | String c rest => escape_char c +:+ escape rest
  end.

Definition quote (s : string) : string :=
  String dquote (escape s +:+ String dquote EmptyString).

Fixpoint JSON_stringify (v : json) : string :=
  match v with
  | JNull => "null"
  | JBool true => "true"
  | JBool false => "false"
  | JNum n => decimal n
  | JStr s => quote s
  | JArr items =>
      "[" +:+
      (fix elements (l : list json) : string :=
         match l with
         | [] => ""
         | x :: rest =>
             match rest with
             | [] => JSON_stringify x
             | _ :: _ => JSON_stringify x +:+ "," +:+ elements rest
             end
         end) items +:+ "]"
  | JObj fields =>
      "{" +:+
      (fix members (l : list (string * json)) : string :=
         match l with
         | [] => ""
         | (k, x) :: rest =>
             match rest with
             | [] => quote k +:+ ":" +:+ JSON_stringify x
             | _ :: _ => quote k +:+ ":" +:+ JSON_stringify x +:+ "," +:+ members rest
             end
         end) fields +:+ "}"
  end.

(** *** [JSON.parse] *)

Definition is_ws (c : ascii) : bool :=
  let n := code c in (n =? 32) || (n =? 9) || (n =? 10) || (n =? 13).

Fixpoint skip_ws (s : list ascii) : list ascii :=
  match s with
  | c :: rest => if is_ws c then skip_ws rest else s
  | [] => []
  end.

Definition digit_of (c : ascii) : option Z :=
  let n := code c in
  if (48 <=? n) && (n <=? 57) then Some (n - 48) else None.

Definition hexdigit_of (c : ascii) : option Z :=
  let n := code c in
  if (48 <=? n) && (n <=? 57) then Some (n - 48)
  else if (97 <=? n) && (n <=? 102) then Some (n - 87)
  else if (65 <=? n) && (n <=? 70) then Some (n - 55)
  else None.

Definition char_of (n : Z) : ascii := ascii_of_N (Z.to_N n).

(** The characters after the opening quote, up to the closing one.
    A [\u] escape is read when it names an ASCII character; the others
    (which need UTF-16 to UTF-8 transcoding) are outside the fragment. *)
Fixpoint parse_string_body (s : list ascii) (acc : list ascii)
  : option (string * list ascii) :=
  match s with
  | [] => None
  | c :: rest =>
      if code c =? 34 then Some (string_of_list_ascii (rev acc), rest)
      else if code c =? 92 then
        match rest with
        | e :: rest' =>
            let n := code e in
            if n =? 34 then parse_string_body rest' (dquote :: acc)
            else if n =? 92 then parse_string_body rest' (backslash :: acc)
            else if n =? 47 then parse_string_body rest' ("/"%char :: acc)
            else if n =? 98 then parse_string_body rest' (char_of 8 :: acc)
            else if n =? 102 then parse_string_body rest' (char_of 12 :: acc)
            else if n =? 110 then parse_string_body rest' (char_of 10 :: acc)
            else if n =? 114 then parse_string_body rest' (char_of 13 :: acc)
            else if n =? 116 then parse_string_body rest' (char_of 9 :: acc)
            else if n =? 117 then
              match rest' with
              | h1 :: h2 :: h3 :: h4 :: rest'' =>
                  match hexdigit_of h1, hexdigit_of h2, hexdigit_of h3, hexdigit_of h4 with
                  | Some a, Some b, Some c', Some d =>
                      let u := ((a * 16 + b) * 16 + c') * 16 + d in
                      if u <? 128 then parse_string_body rest'' (char_of u :: acc)
                      else None
                  | _, _, _, _ => None
                  end
              | _ => None
              end
            else None
        | [] => None
        end
      else if code c <? 32 then None
      else parse_string_body rest (c :: acc)
  end.

Fixpoint parse_digits (s : list ascii) (acc : Z) : Z * list ascii :=
  match s with
  | c :: rest =>
      match digit_of c with
      | Some d => parse_digits rest (acc * 10 + d)
      | None => (acc, s)
      end
  | [] => (acc, [])
  end.

Definition max_safe_integer : Z := 9007199254740991.

(** Integer literals only: a fraction or an exponent is outside the
    fragment, as is an integer a double does not hold exactly. *)
Definition parse_number (s : list ascii) : option (json * list ascii) :=
  let '(negative, s1) :=
    match s with
    | c :: rest => if code c =? 45 then (true, rest) else (false, s)
    | [] => (false, s)
    end in
  match s1 with
  | c :: rest =>
      match digit_of c with
      | Some d =>
          let '(n, s2) := if d =? 0 then (0, rest) else parse_digits rest d in
          let follows :=
            match s2 with
            | c2 :: _ =>
                let m := code c2 in
                ((48 <=? m) && (m <=? 57)) || (m =? 46) || (m =? 101) || (m =? 69)
            | [] => false
            end in
          if follows || (max_safe_integer <? n) then None
          else Some (JNum (if negative then - n else n), s2)
      | None => None
      end
  | [] => None
  end.

Fixpoint strip_prefix (p s : list ascii) : option (list ascii) :=
  match p, s with
  | [], _ => Some s
  | a :: p', b :: s' => if Ascii.eqb a b then strip_prefix p' s' else None
  | _ :: _, [] => None
  end.

(** Own-property order of an object: array-index keys first, by value,
    then the other keys in creation order; assigning an existing key
    keeps its place. *)
Definition array_index (k : string) : option Z :=
  match list_ascii_of_string k with
  | [] => None
  | c :: rest =>
      match digit_of c with
      | Some d =>
          if (d =? 0) then (match rest with [] => Some 0 | _ => None end)
          else
            let '(n, tail) := parse_digits rest d in
            match tail with
            | [] => if n <? 4294967295 then Some n else None
            | _ => None
            end
      | None => None
      end
  end.

Definition key_before (k k' : string) : bool :=
  match array_index k, array_index k' with
  | Some i, Some j => i <? j
  | Some _, None => true
  | None, _ => false
  end.

Fixpoint replace_field (k : string) (v : json) (fields : list (string * json))
  : list (string * json) :=
  match fields with
  | [] => []
  | (k', v') :: rest =>
      if String.eqb k k' then (k, v) :: rest
      else (k', v') :: replace_field k v rest
  end.

Fixpoint add_field (k : string) (v : json) (fields : list (string * json))
  : list (string * json) :=
  match fields with
  | [] => [(k, v)]
  | (k', v') :: rest =>
      if key_before k k' then (k, v) :: fields
      else (k', v') :: add_field k v rest
  end.

Definition set_field (k : string) (v : json) (fields : list (string * json))
  : list (string * json) :=
  match lookup_field k fields with
  | Some _ => replace_field k v fields
  | None => add_field k v fields
  end.

Section Composite.
(** The parser of one value, for the elements of an array and the
    members of an object. *)
Variable parse_value : list ascii -> option (json * list ascii).

Fixpoint parse_elements (n : nat) (acc : list json) (s : list ascii)
  : option (json * list ascii) :=
  match n with
  | O => None
  | S n' =>
      match parse_value s with
      | Some (v, r) =>
          match skip_ws r with
          | c :: r' =>
              if code c =? 44 then parse_elements n' (v :: acc) r'
              else if code c =? 93 then Some (JArr (rev (v :: acc)), r')
              else None
          | [] => None
          end
      | None => None
      end
  end.

Fixpoint parse_members (n : nat) (acc : list (string * json)) (s : list ascii)
  : option (json * list ascii) :=
  match n with
  | O => None
  | S n' =>
      match skip_ws s with
      | q :: r0 =>
          if code q =? 34 then
            match parse_string_body r0 [] with
            | Some (k, r1) =>
                match skip_ws r1 with
                | colon :: r2 =>
                    if code colon =? 58 then
                      match parse_value r2 with
                      | Some (v, r3) =>
                          match skip_ws r3 with
                          | c :: r4 =>
                              if code c =? 44 then parse_members n' (set_field k v acc) r4
                              else if code c =? 125 then Some (JObj (set_field k v acc), r4)
                              else None
                          | [] => None
                          end
                      | None => None
                      end
                    else None
                | [] => None
                end
            | None => None
            end
          else None
      | [] => None
      end
  end.
End Composite.

Fixpoint parse_value (fuel : nat) (s : list ascii) : option (json * list ascii) :=
  match fuel with
  | O => None
  | S fuel' =>
      match skip_ws s with
      | [] => None
      | c :: rest =>
          let n := code c in
          if n =? 123 then
            match skip_ws rest with
            | c' :: rest' =>
                if code c' =? 125 then Some (JObj [], rest')
                else parse_members (parse_value fuel') fuel' [] rest
            | [] => None
            end
          else if n =? 91 then
            match skip_ws rest with
            | c' :: rest' =>
                if code c' =? 93 then Some (JArr [], rest')
                else parse_elements (parse_value fuel') fuel' [] rest
            | [] => None
            end
          else if n =? 34 then
            match parse_string_body rest [] with
            | Some (str, r) => Some (JStr str, r)
            | None => None
            end
          else if n =? 116 then
            option_map (fun r => (JBool true, r))
                       (strip_prefix (list_ascii_of_string "true") (c :: rest))
          else if n =? 102 then
            option_map (fun r => (JBool false, r))
                       (strip_prefix (list_ascii_of_string "false") (c :: rest))
          else if n =? 110 then
            option_map (fun r => (JNull, r))
                       (strip_prefix (list_ascii_of_string "null") (c :: rest))
          else parse_number (c :: rest)
      end
  end.

(** [None] is a [SyntaxError] (or text outside the fragment). *)
Definition JSON_parse (text : string) : option json :=
  let s := list_ascii_of_string text in
  match parse_value (S (length s)) s with
  | Some (v, rest) =>
      match skip_ws rest with
      | [] => Some v
      | _ :: _ => None
      end
  | None => None
  end.

(** Writes [text] with every apostrophe turned into a double quote:
    [dq "{'a':1}"] is the five-character-plus-quotes JSON text. *)
Definition dq (text : string) : string :=
  string_of_list_ascii
    (map (fun c => if code c =? 39 then dquote else c) (list_ascii_of_string text)).

End Json.
Import Json.

(** ** The runtime: exceptions, the event trace, axios, [Promise.all] *)
Module Runtime.

Record AxiosResponse := mkResponse { resp_status : Z; resp_data : json }.

(** [error.message], [error.code], [error.response]; an error may
    carry no code. *)
Record AxiosError := mkAxiosError
  { err_message : string; err_code : option string; err_response : option AxiosResponse }.

Inductive Exn :=
| TypeError (msg : string)
| AxiosFailure (e : AxiosError).

Definition exn_message (e : Exn) : value :=
  match e with
  | TypeError msg => Some (JStr msg)
  | AxiosFailure a => Some (JStr (err_message a))
  end.

Definition exn_code (e : Exn) : value :=
  match e with
  | TypeError _ => None
  | AxiosFailure a => option_map JStr (err_code a)
  end.

(** [error.response?.status] *)
Definition exn_response_status (e : Exn) : value :=
  match e with
  | TypeError _ => None
  | AxiosFailure a =>
      match err_response a with
      | Some r => Some (JNum (resp_status r))
      | None => None
      end
  end.

(** An outbound POST as axios puts it on the wire.  The [data] the
    routes pass is an object or an array (the strict body parser gives
    nothing else, and the test route builds an object), which axios
    writes with [JSON.stringify]. *)
Record OutRequest := mkOutRequest
  { out_url : string;
    out_body : string;
    out_headers : list (string * option string);
    out_timeout : json }.

(** What the network does with a request. *)
Inductive Transport :=
| Replied (status : Z) (data : json)
| TimedOut
| Unreachable (code message : string).

(** The downstream systems and the clock, as the dispatcher meets them. *)
Record World := mkWorld
  { http_get : string -> json -> Transport;
    http_post : OutRequest -> Transport;
    forward_ms : Z;
    processing_ms : Z }.

Record LogEntry := mkLog
  { level : string; message : string; meta : list (string * value) }.

Inductive Event :=
| Log (entry : LogEntry)
| GetIssued (url : string) (timeout : json)
| GetSettled (url : string)
| PostIssued (r : OutRequest)
| PostSettled (r : OutRequest).

(** How a piece of asynchronous code ends: with a value, with an
    exception, or never (it awaits a promise that does not settle). *)
Inductive outcome (A : Type) :=
| Done (a : A)
| Threw (e : Exn)
| Waiting.
Arguments Done {A} a.
Arguments Threw {A} e.
Arguments Waiting {A}.

(** A computation: the events it produced, in order, and how it ended. *)
Definition M (A : Type) : Type := list Event * outcome A.

Definition ret {A} (a : A) : M A := ([], Done a).
Definition throw {A} (e : Exn) : M A := ([], Threw e).

Definition bind {A B} (m : M A) (k : A -> M B) : M B :=
  match m with
  | (tr, Done a) => let '(tr', r) := k a in (tr ++ tr', r)
  | (tr, Threw e) => (tr, Threw e)
  | (tr, Waiting) => (tr, Waiting)
  end.

Definition emit (evs : list Event) : M unit := (evs, Done tt).

(** [try { m } catch (error) { handler error }] *)
Definition try_catch {A} (m : M A) (handler : Exn -> M A) : M A :=
  match m with
  | (tr, Threw e) => let '(tr', r) := handler e in (tr ++ tr', r)
  | _ => m
  end.

(** The outbound traffic of a trace: everything but the log lines. *)
Definition is_network (e : Event) : bool :=
  match e with Log _ => false | _ => true end.
Definition network (tr : list Event) : list Event := List.filter is_network tr.

Definition trace {A} (m : M A) : list Event := fst m.
Definition result {A} (m : M A) : outcome A := snd m.

Definition log (lvl msg : string) (fields : list (string * value)) : M unit :=
  emit [Log (mkLog lvl msg fields)].

Definition str (s : string) : value := Some (JStr s).
Definition num (n : Z) : value := Some (JNum n).

(** *** axios

    The code of the error for a reply that [validateStatus] refuses
    (axios 1.x, [settle]):
    [[ERR_BAD_REQUEST, ERR_BAD_RESPONSE][Math.floor(status / 100) - 4]],
    so a status outside 400-599 gives an error without a code. *)
Definition status_error_code (status : Z) : option string :=
  match status / 100 - 4 with
  | 0 => Some "ERR_BAD_REQUEST"
  | 1 => Some "ERR_BAD_RESPONSE"
  | _ => None
  end.

(** A reply whose status [validateStatus] accepts fulfils the promise;
    any other reply, a timeout or a transport failure rejects it. *)
Definition settle (validateStatus : Z -> bool) (timeout : json) (t : Transport)
  : outcome AxiosResponse :=
  match t with
  | Replied status data =>
      if validateStatus status then Done (mkResponse status data)
      else Threw (AxiosFailure
             (mkAxiosError
                ("Request failed with status code " +:+ decimal status)
                (status_error_code status)
                (Some (mkResponse status data))))
  | TimedOut =>
      Threw (AxiosFailure
               (mkAxiosError ("timeout of " +:+ ToString timeout +:+ "ms exceeded")
                             (Some "ECONNABORTED") None))
  | Unreachable code message =>
      Threw (AxiosFailure (mkAxiosError message (Some code) None))
  end.

(** axios' own [validateStatus], used when the call gives none. *)
Definition default_validateStatus (status : Z) : bool :=
  (200 <=? status) && (status <? 300).

(** The part of [await axios.get(url, config)] after the request left. *)
Definition axios_get_settled (w : World) (url : string) (timeout : json)
           (validateStatus : Z -> bool) : M AxiosResponse :=
  ([GetSettled url], settle validateStatus timeout (http_get w url timeout)).

(** [await axios.post(url, data, config)] *)
Definition axios_post (w : World) (r : OutRequest) (validateStatus : Z -> bool)
  : M AxiosResponse :=
  ([PostIssued r; PostSettled r], settle validateStatus (out_timeout r) (http_post w r)).

(** *** [Promise.all]

    [tasks] are the promises, each with the events its continuation
    produces when it settles and the way it settles; [order] lists
    the promises in the order in which they settle.  A fulfilled
    promise stores its value in its own slot and decrements the
    counter; the promise of [Promise.all] fulfils, with the slots in
    task order, when the counter reaches zero, and rejects with the
    first rejection (what the other promises do afterwards is not
    traced).  While promises are outstanding it is pending. *)
Definition values {A} (slots : list (option A)) : list A := omap (fun x => x) slots.

Fixpoint all_settle {A} (tasks : list (M A)) (order : list nat)
         (slots : list (option A)) (remaining : nat) : M (list A) :=
  match order with
  | [] => ([], Waiting)
  | i :: later =>
      match tasks !! i, slots !! i with
      | Some (tr, Done v), Some None =>
          let slots' := <[i := Some v]> slots in
          match remaining with
          | 1%nat => (tr, Done (values slots'))
          | _ => bind (emit tr) (fun _ => all_settle tasks later slots' (pred remaining))
          end
      | Some (tr, Threw e), Some None => (tr, Threw e)
      | Some (tr, Waiting), Some None =>
          bind (emit tr) (fun _ => all_settle tasks later slots remaining)
      | _, _ => all_settle tasks later slots remaining
      end
  end.

Definition Promise_all {A} (tasks : list (M A)) (order : list nat) : M (list A) :=
  match tasks with
  | [] => ret []
  | _ :: _ => all_settle tasks order (replicate (length tasks) None) (length tasks)
  end.

(** Every promise fulfils; [vs] are the values, in task order. *)
Definition all_fulfil {A} (tasks : list (M A)) (vs : list A) : Prop :=
  Forall2 (fun t v => result t = Done v) tasks vs.

(** The events of the continuation of promise [i]. *)
Definition task_trace {A} (tasks : list (M A)) (i : nat) : list Event :=
  match tasks !! i with Some t => trace t | None => [] end.

(** A schedule under which each of [n] promises settles, once. *)
Definition complete_schedule (n : nat) (order : list nat) : Prop :=
  order ≡ₚ seq 0 n.

End Runtime.
Import Runtime.

Notation "x <- m ;; k" := (bind m (fun x => k))
  (at level 100, m at next level, right associativity).
Notation "m ;;; k" := (bind m (fun _ => k))
  (at level 100, right associativity).

(** ** What both revisions share: registry entries, requests, responses *)
Module Http.

(** An entry of [TICKETING_SYSTEMS].  The fields are JavaScript
    values: the administrative route stores whatever the request body
    holds, and an entry may lack a field. *)
Record System := mkSystem
  { sys_id : value;
    sys_name : value;
    sys_baseUrl : value;
    sys_webhookPath : value;
    sys_healthCheck : value;
    sys_enabled : value;
    sys_timeout : value }.

(** [process.env] *)
Record Env := mkEnv
  { PAYSTACK_SECRET_KEY : option string;
    CBS_BASE_URL : option string }.

(** An inbound request as a route handler sees it: [req.id] from the
    request-id middleware, [req.headers] with node's lower-case names,
    and [req.body], which [express.json()] parsed from the octets
    received.  The octets themselves are not kept by the server; they
    are a field here so that statements can speak of them. *)
Record Request := mkRequest
  { req_id : string;
    req_headers : list (string * string);
    req_rawBody : string;
    req_body : json }.

Record Response := mkResult { res_status : Z; res_body : json }.

(** [app.use(express.json())] on a request with a JSON content type
    (body-parser 1.x): an empty body is the empty object, strict mode
    takes an object or an array only, and a body it rejects ([None])
    never reaches a route.  The texts read are those of [JSON_parse]:
    octet strings of any length whose numbers are integers written
    without fraction or exponent and whose [\u] escapes name ASCII
    characters; for a text outside that fragment [None] says nothing
    about the parser of the library (which also limits a body to
    100kb and decodes it as UTF-8). *)
Definition express_json (raw : string) : option json :=
  match list_ascii_of_string raw with
  | [] => Some (JObj [])
  | s =>
      match skip_ws s with
      | c :: _ => if (code c =? 123) || (code c =? 91) then JSON_parse raw else None
      | [] => None
      end
  end.

(** The request a route sees for the received octets. *)
Definition received (id : string) (headers : list (string * string)) (raw : string)
  : option Request :=
  option_map (mkRequest id headers raw) (express_json raw).

(** [headers[name]] *)
Fixpoint header (name : string) (headers : list (string * string)) : option string :=
  match headers with
  | [] => None
  | (k, v) :: rest => if String.eqb name k then Some v else header name rest
  end.

Definition header_value (h : option string) : value := option_map JStr h.

(** [h || fallback] on a header *)
Definition header_or (h : option string) (fallback : string) : string :=
  match h with
  | Some v => if String.eqb v "" then fallback else v
  | None => fallback
  end.

(** [crypto.createHmac('sha512', key).update(text).digest('hex')];
    an [undefined] key is a [TypeError]. *)
Definition createHmac_hex (key : option string) (text : string) : M string :=
  match key with
  | Some k => ret (Crypto.createHmac_sha512_hex k text)
  | None => throw (TypeError "The key argument must be of type string")
  end.

(** [const { event, data } = body]: destructuring [null] throws. *)
Definition destructure_event_data (body : json) : M (value * value) :=
  match body with
  | JNull => throw (TypeError "Cannot destructure property 'event' of 'req.body' as it is null.")
  | _ => ret (prop "event" body, prop "data" body)
  end.

(** [results.find(system => system !== null)], [null] being [None];
    [find] answers [undefined], the outer [None], when nothing fits. *)
Definition find_not_null {A} (results : list (option A)) : option (option A) :=
  List.find (fun system => match system with Some _ => true | None => false end) results.

(** [!targetSystem] is false exactly for an entry. *)
Definition found_system {A} (r : option (option A)) : option A :=
  match r with Some (Some system) => Some system | _ => None end.

(** Response to the ticket lookup that counts as "this system owns the
    reference": [status === 200 || (status === 400 && data?.data?.ticket)]. *)
Definition owns_reference (response : AxiosResponse) : bool :=
  (resp_status response =? 200)
  || ((resp_status response =? 400)
      && truthy_value (opt_prop "ticket" (opt_prop "data" (Some (resp_data response))))).

(** [response.data?.data?.ticket] as a condition, read off the reply
    body: there is a value under [data.ticket] and it is truthy. *)
Definition ticket_present (data : json) : bool :=
  match prop "data" data with
  | Some inner =>
      match prop "ticket" inner with
      | Some ticket => truthy ticket
      | None => false
      end
  | None => false
  end.

(** A system confirms ownership of a reference when its verification
    endpoint answers 200, or 400 with a truthy [data.ticket] in the
    reply; any other status, a timeout or a transport failure is no
    confirmation.  [timeout] is the deadline the revision gives the
    lookup. *)
Definition confirms (w : World) (timeout : System -> json) (paymentReference : json)
           (system : System) : bool :=
  match http_get w (ToString_value (sys_baseUrl system) +:+ "/api/tickets/verify/"
                    +:+ ToString paymentReference) (timeout system) with
  | Replied status data => (status =? 200) || ((status =? 400) && ticket_present data)
  | TimedOut => false
  | Unreachable _ _ => false
  end.

Definition verify_url (system : System) (paymentReference : json) : string :=
  ToString_value (sys_baseUrl system) +:+ "/api/tickets/verify/" +:+ ToString paymentReference.

Definition webhook_url (system : System) : string :=
  ToString_value (sys_baseUrl system) +:+ ToString_value (sys_webhookPath system).

Definition enabled_systems (systems : list System) : list System :=
  List.filter (fun system => truthy_value (sys_enabled system)) systems.



Definition is_post (e : Event) : bool :=
  match e with PostIssued _ => true | _ => false end.

End Http.
Import Http.

(** ** The instrumented server (first revision in [src/server.js])

    Logger calls are traced with their level, message and the meta
    fields that are not clock readings or listings of the registry. *)
Module Server.

Definition TICKETING_SYSTEMS (env : Env) : list System :=
  [ {| sys_id := str "cbs-ticketing";
       sys_name := str "CBS Ticketing";
       sys_baseUrl := Some (or_else (option_map JStr (CBS_BASE_URL env))
                                    (JStr "https://cbs-ticketing.com"));
       sys_webhookPath := str "/api/webhooks/paystack";
       sys_healthCheck := str "/health";
       sys_enabled := Some (JBool true);
       sys_timeout := num 30000 |};
    {| sys_id := None;
       sys_name := str "MMV Ticketing";
       sys_baseUrl := str "https://api.cuministrymmv.org";
       sys_webhookPath := str "/api/webhooks/paystack";
       sys_healthCheck := str "/health";
       sys_enabled := Some (JBool true);
       sys_timeout := None |} ].

(** *** [findTargetSystem] *)

(** [system.timeout || 5000] *)
Definition lookup_timeout (system : System) : json :=
  or_else (sys_timeout system) (JNum 5000).

(** One element of [searchPromises] up to its [await]: the callback
    logs and hands the request to axios. *)
Definition search_issued (paymentReference : json) (requestId : string)
           (system : System) : list Event :=
  [ Log (mkLog "debug" "Checking system for payment reference"
           [("type", str "system_check_start"); ("requestId", str requestId);
            ("system_id", sys_id system); ("system_name", sys_name system);
            ("reference", Some paymentReference);
            ("check_url", str (verify_url system paymentReference))]);
    GetIssued (verify_url system paymentReference) (lookup_timeout system) ].

(** The same element from the moment the request settles. *)
Definition search_settled (w : World) (paymentReference : json) (requestId : string)
           (system : System) : M (option System) :=
  try_catch
    (response <- axios_get_settled w (verify_url system paymentReference)
                   (lookup_timeout system)
                   (fun status => status <? 500) ;;
     log "debug" "System check completed"
         [("type", str "system_check_complete"); ("requestId", str requestId);
          ("system_id", sys_id system); ("system_name", sys_name system);
          ("reference", Some paymentReference);
          ("response_status", num (resp_status response));
          ("found", Some (JBool (owns_reference response)))] ;;;
     if owns_reference response then
       log "info" "Payment reference found in system"
           [("type", str "system_discovery_success"); ("requestId", str requestId);
            ("system_id", sys_id system); ("system_name", sys_name system);
            ("reference", Some paymentReference);
            ("response_status", num (resp_status response))] ;;;
       ret (Some system)
     else
       log "debug" "Payment reference not found in system"
           [("type", str "system_check_not_found"); ("requestId", str requestId);
            ("system_id", sys_id system); ("system_name", sys_name system);
            ("reference", Some paymentReference);
            ("response_status", num (resp_status response))] ;;;
       ret None)
    (fun error =>
       log "warn" "System check failed"
           [("type", str "system_check_error"); ("requestId", str requestId);
            ("system_id", sys_id system); ("system_name", sys_name system);
            ("reference", Some paymentReference);
            ("error", exn_message error); ("error_code", exn_code error);
            ("timeout", sys_timeout system)] ;;;
       ret None).

Definition findTargetSystem (w : World) (order : list nat) (systems : list System)
           (paymentReference : json) (requestId : string) : M (option (option System)) :=
  log "info" "Starting system discovery"
      [("type", str "system_discovery_start"); ("requestId", str requestId);
       ("reference", Some paymentReference);
       ("systems_to_check", num (Z.of_nat (length (enabled_systems systems))))] ;;;
  emit (concat (map (search_issued paymentReference requestId) (enabled_systems systems))) ;;;
  results <- Promise_all (map (search_settled w paymentReference requestId)
                              (enabled_systems systems)) order ;;
  let foundSystem := find_not_null results in
  match found_system foundSystem with
  | Some system =>
      log "info" "System discovery completed successfully"
          [("type", str "system_discovery_complete"); ("requestId", str requestId);
           ("reference", Some paymentReference); ("found_system", sys_id system);
           ("checked_systems", num (Z.of_nat (length (enabled_systems systems))))]
  | None =>
      log "warn" "System discovery failed - no system found"
          [("type", str "system_discovery_failed"); ("requestId", str requestId);
           ("reference", Some paymentReference)]
  end ;;;
  ret foundSystem.

(** *** [forwardWebhook] *)

Record ForwardResult := mkForwardResult
  { success : bool;
    fr_status : value;
    fr_data : value;
    fr_error : value;
    fr_responseTime : value }.

(** [webhookBody.event] and [webhookBody.data?.reference] for the log:
    reading a property of [null] throws. *)
Definition read_event_reference (webhookBody : json) : M (value * value) :=
  match webhookBody with
  | JNull => throw (TypeError "Cannot read properties of null (reading 'event')")
  | _ => ret (prop "event" webhookBody, opt_prop "reference" (prop "data" webhookBody))
  end.

Definition forward_request (targetSystem : System) (webhookBody : json)
           (originalHeaders : list (string * string)) (requestId : string) : OutRequest :=
  {| out_url := webhook_url targetSystem;
     out_body := JSON_stringify webhookBody;
     out_headers :=
       [ ("Content-Type", Some "application/json");
         ("X-Paystack-Signature", header "x-paystack-signature" originalHeaders);
         ("User-Agent", Some "Paystack-Webhook-Dispatcher/1.0");
         ("X-Forwarded-For",
           Some (header_or (header "x-forwarded-for" originalHeaders) "dispatcher"));
         ("X-Request-ID", Some requestId) ];
     out_timeout := or_else (sys_timeout targetSystem) (JNum 30000) |}.

Definition forwardWebhook (w : World) (targetSystem : System) (webhookBody : json)
           (originalHeaders : list (string * string)) (requestId : string)
  : M ForwardResult :=
  let webhookUrl := webhook_url targetSystem in
  try_catch
    (er <- read_event_reference webhookBody ;;
     log "info" "Forwarding webhook to target system"
         [("type", str "webhook_forward_start"); ("requestId", str requestId);
          ("target_system", sys_id targetSystem); ("system_name", sys_name targetSystem);
          ("webhook_url", str webhookUrl);
          ("event", fst er); ("reference", snd er)] ;;;
     response <- axios_post w (forward_request targetSystem webhookBody originalHeaders requestId)
                   (fun status => status <? 500) ;;
     log "info" "Webhook forwarded successfully"
         [("type", str "webhook_forward_complete"); ("requestId", str requestId);
          ("target_system", sys_id targetSystem); ("system_name", sys_name targetSystem);
          ("response_status", num (resp_status response));
          ("response_size",
            num (Z.of_nat (String.length (JSON_stringify (resp_data response)))))] ;;;
     ret {| success := true;
            fr_status := num (resp_status response);
            fr_data := Some (resp_data response);
            fr_error := None;
            fr_responseTime := num (forward_ms w) |})
    (fun error =>
       log "error" "Webhook forwarding failed"
           [("type", str "webhook_forward_error"); ("requestId", str requestId);
            ("target_system", sys_id targetSystem); ("system_name", sys_name targetSystem);
            ("webhook_url", str webhookUrl);
            ("error", exn_message error);
            ("error_code", exn_code error);
            ("response_status", exn_response_status error);
            ("timeout", sys_timeout targetSystem)] ;;;
       ret {| success := false;
              fr_status := Some (or_else (exn_response_status error) (JStr "network_error"));
              fr_data := None;
              fr_error := exn_message error;
              fr_responseTime := num (forward_ms w) |}).

(** The entry the [catch] block of [forwardWebhook] logs for the
    axios error [e]. *)
Definition failure_entry (targetSystem : System) (requestId : string) (e : AxiosError)
  : Event :=
  Log (mkLog "error" "Webhook forwarding failed"
         [("type", str "webhook_forward_error"); ("requestId", str requestId);
          ("target_system", sys_id targetSystem); ("system_name", sys_name targetSystem);
          ("webhook_url", str (webhook_url targetSystem));
          ("error", str (err_message e));
          ("error_code", option_map JStr (err_code e));
          ("response_status", option_map (fun r => JNum (resp_status r)) (err_response e));
          ("timeout", sys_timeout targetSystem)]).

(** The entry the webhook route logs once the signature checks are
    passed. *)
Definition verified_entry (requestId : string) : Event :=
  Log (mkLog "info" "Paystack signature verified successfully"
         [("type", str "webhook_security_success"); ("requestId", str requestId)]).

(** *** [app.post('/webhooks/paystack')] *)

Definition post_webhooks_paystack (env : Env) (w : World) (order : list nat)
           (systems : list System) (req : Request) : M Response :=
  let requestId := req_id req in
  try_catch
    (log "info" "Webhook received from Paystack"
         [("type", str "webhook_received"); ("requestId", str requestId);
          ("body_size", num (Z.of_nat (String.length (JSON_stringify (req_body req)))))] ;;;
     let signature := header "x-paystack-signature" (req_headers req) in
     if negb (truthy_value (header_value signature)) then
       log "warn" "Missing Paystack signature"
           [("type", str "webhook_security_error"); ("requestId", str requestId)] ;;;
       ret (mkResult 400 (object_of [("error", str "Missing signature")]))
     else
       hash <- createHmac_hex (PAYSTACK_SECRET_KEY env) (JSON_stringify (req_body req)) ;;
       if negb (bool_decide (Some hash = signature)) then
         log "error" "Invalid Paystack signature"
             [("type", str "webhook_security_error"); ("requestId", str requestId)] ;;;
         ret (mkResult 400 (object_of [("error", str "Invalid signature")]))
       else
         log "info" "Paystack signature verified successfully"
             [("type", str "webhook_security_success"); ("requestId", str requestId)] ;;;
         ed <- destructure_event_data (req_body req) ;;
         let event := fst ed in
         let data := snd ed in
         let paymentReference := opt_prop "reference" data in
         match paymentReference with
         | Some reference =>
             if negb (truthy reference) then
               log "error" "No payment reference in webhook"
                   [("type", str "webhook_validation_error"); ("requestId", str requestId);
                    ("event", event)] ;;;
               ret (mkResult 400 (object_of [("error", str "No payment reference")]))
             else
               log "info" "Processing webhook"
                   [("type", str "webhook_processing"); ("requestId", str requestId);
                    ("event", event); ("reference", paymentReference);
                    ("amount", opt_prop "amount" data);
                    ("currency", opt_prop "currency" data);
                    ("customer_email", opt_prop "email" (opt_prop "customer" data));
                    ("channel", opt_prop "channel" data)] ;;;
               targetSystem <- findTargetSystem w order systems reference requestId ;;
               match found_system targetSystem with
               | None =>
                   log "warn" "No system found for payment reference"
                       [("type", str "webhook_system_not_found"); ("requestId", str requestId);
                        ("reference", paymentReference); ("event", event)] ;;;
                   ret (mkResult 404
                          (object_of [("error", str "Payment reference not found in any system");
                                      ("reference", paymentReference)]))
               | Some targetSystem =>
                   log "info" "Target system identified"
                       [("type", str "webhook_system_found"); ("requestId", str requestId);
                        ("target_system", sys_id targetSystem);
                        ("system_name", sys_name targetSystem);
                        ("reference", paymentReference)] ;;;
                   forwardResult <- forwardWebhook w targetSystem (req_body req)
                                      (req_headers req) requestId ;;
                   if success forwardResult then
                     log "info" "Webhook forwarded successfully"
                         [("type", str "webhook_forward_success"); ("requestId", str requestId);
                          ("target_system", sys_id targetSystem);
                          ("system_name", sys_name targetSystem);
                          ("reference", paymentReference);
                          ("response_status", fr_status forwardResult)] ;;;
                     ret (mkResult 200
                            (object_of [("success", Some (JBool true));
                                        ("requestId", str requestId);
                                        ("forwardedTo", sys_name targetSystem);
                                        ("processingTime", num (processing_ms w));
                                        ("response", fr_data forwardResult)]))
                   else
                     log "error" "Failed to forward webhook"
                         [("type", str "webhook_forward_error"); ("requestId", str requestId);
                          ("target_system", sys_id targetSystem);
                          ("system_name", sys_name targetSystem);
                          ("reference", paymentReference);
                          ("error", fr_error forwardResult);
                          ("status", fr_status forwardResult)] ;;;
                     ret (mkResult 500
                            (object_of [("error", str "Failed to forward webhook");
                                        ("requestId", str requestId);
                                        ("details", fr_error forwardResult)]))
               end
         | None =>
             log "error" "No payment reference in webhook"
                 [("type", str "webhook_validation_error"); ("requestId", str requestId);
                  ("event", event)] ;;;
             ret (mkResult 400 (object_of [("error", str "No payment reference")]))
         end)
    (fun error =>
       log "error" "Webhook dispatcher error"
           [("type", str "webhook_dispatcher_error"); ("requestId", str requestId);
            ("error", exn_message error)] ;;;
       ret (mkResult 500 (object_of [("error", str "Webhook processing failed");
                                     ("requestId", str requestId)]))).

(** *** [app.post('/admin/systems')]

    The registry is the module-level array; the route takes it and
    gives back what it holds afterwards.  The route has no [try]: an
    exception goes to the framework. *)
Definition with_default (v : value) (d : json) : value :=
  match v with Some _ => v | None => Some d end.

Definition post_admin_systems (systems : list System) (req : Request)
  : M (list System * Response) :=
  match req_body req with
  | JNull => throw (TypeError "Cannot destructure property 'id' of 'req.body' as it is null.")
  | body =>
      let id := prop "id" body in
      let name := prop "name" body in
      let baseUrl := prop "baseUrl" body in
      let webhookPath := with_default (prop "webhookPath" body) (JStr "/api/webhooks/paystack") in
      let enabled := with_default (prop "enabled" body) (JBool true) in
      let timeout := with_default (prop "timeout" body) (JNum 30000) in
      log "info" "Admin adding new system"
          [("type", str "admin_system_add"); ("requestId", str (req_id req));
           ("system_data", Some (object_of [("id", id); ("name", name);
                                            ("baseUrl", baseUrl); ("enabled", enabled)]))] ;;;
      if negb (truthy_value id) || negb (truthy_value name) || negb (truthy_value baseUrl) then
        log "warn" "Admin system add failed - missing required fields"
            [("type", str "admin_system_add_error"); ("requestId", str (req_id req))] ;;;
        ret (systems, mkResult 400 (object_of [("error", str "ID, name and baseUrl required")]))
      else
        let newSystem :=
          {| sys_id := id; sys_name := name; sys_baseUrl := baseUrl;
             sys_webhookPath := webhookPath; sys_healthCheck := str "/health";
             sys_enabled := enabled; sys_timeout := timeout |} in
        let systems' := systems ++ [newSystem] in
        log "info" "New system added successfully"
            [("type", str "admin_system_added"); ("requestId", str (req_id req));
             ("system_id", id); ("system_name", name);
             ("total_systems", num (Z.of_nat (length systems')))] ;;;
        ret (systems',
             mkResult 200
               (object_of
                  [("success", Some (JBool true));
                   ("message", str "System added successfully");
                   ("system", Some (object_of
                      [("id", id); ("name", name); ("baseUrl", baseUrl);
                       ("webhookPath", webhookPath); ("healthCheck", str "/health");
                       ("enabled", enabled); ("timeout", timeout)]))]))
  end.

End Server.

(** ** The plain server (second revision in [src/server.js])

    No request ids, no [id] or [timeout] in the registry entries; its
    [console.log] lines are not traced. *)
Module PlainServer.

Definition TICKETING_SYSTEMS : list System :=
  [ {| sys_id := None;
       sys_name := str "CBS Ticketing";
       sys_baseUrl := str "https://api.cbs.eticketzgh.com/";
       sys_webhookPath := str "/api/webhooks/paystack";
       sys_healthCheck := str "/health";
       sys_enabled := Some (JBool true);
       sys_timeout := None |};
    {| sys_id := None;
       sys_name := str "MMV Ticketing";
       sys_baseUrl := str "https://api.cuministrymmv.org";
       sys_webhookPath := str "/api/webhooks/paystack";
       sys_healthCheck := str "/health";
       sys_enabled := Some (JBool true);
       sys_timeout := None |} ].

Definition lookup_timeout (system : System) : json := JNum 5000.

Definition search_issued (paymentReference : json) (system : System) : list Event :=
  [ GetIssued (verify_url system paymentReference) (lookup_timeout system) ].

Definition search_settled (w : World) (paymentReference : json) (system : System)
  : M (option System) :=
  try_catch
    (response <- axios_get_settled w (verify_url system paymentReference)
                   (lookup_timeout system)
                   (fun status => status <? 500) ;;
     if owns_reference response then ret (Some system) else ret None)
    (fun error => ret None).

Definition findTargetSystem (w : World) (order : list nat) (systems : list System)
           (paymentReference : json) : M (option (option System)) :=
  emit (concat (map (search_issued paymentReference) (enabled_systems systems))) ;;;
  results <- Promise_all (map (search_settled w paymentReference)
                              (enabled_systems systems)) order ;;
  ret (find_not_null results).

Record ForwardResult := mkForwardResult
  { success : bool; fr_data : value; fr_error : value; fr_status : value }.

Definition forward_request (targetSystem : System) (webhookBody : json)
           (originalHeaders : list (string * string)) : OutRequest :=
  {| out_url := webhook_url targetSystem;
     out_body := JSON_stringify webhookBody;
     out_headers :=
       [ ("Content-Type", Some "application/json");
         ("X-Paystack-Signature", header "x-paystack-signature" originalHeaders);
         ("User-Agent", Some "Paystack-Webhook-Dispatcher/1.0") ];
     out_timeout := JNum 30000 |}.

Definition forwardWebhook (w : World) (targetSystem : System) (webhookBody : json)
           (originalHeaders : list (string * string)) : M ForwardResult :=
  try_catch
    (response <- axios_post w (forward_request targetSystem webhookBody originalHeaders)
                   default_validateStatus ;;
     ret {| success := true; fr_data := Some (resp_data response);
            fr_error := None; fr_status := None |})
    (fun error =>
       ret {| success := false; fr_data := None;
              fr_error := exn_message error;
              fr_status := exn_response_status error |}).

Definition post_webhooks_paystack (env : Env) (w : World) (order : list nat)
           (systems : list System) (req : Request) : M Response :=
  try_catch
    (hash <- createHmac_hex (PAYSTACK_SECRET_KEY env) (JSON_stringify (req_body req)) ;;
     if negb (bool_decide (Some hash = header "x-paystack-signature" (req_headers req))) then
       ret (mkResult 400 (object_of [("error", str "Invalid signature")]))
     else
       ed <- destructure_event_data (req_body req) ;;
       let data := snd ed in
       let paymentReference := opt_prop "reference" data in
       match paymentReference with
       | Some reference =>
           if negb (truthy reference) then
             ret (mkResult 400 (object_of [("error", str "No payment reference")]))
           else
             targetSystem <- findTargetSystem w order systems reference ;;
             match found_system targetSystem with
             | None =>
                 ret (mkResult 404
                        (object_of [("error", str "Payment reference not found in any system")]))
             | Some targetSystem =>
                 forwardResult <- forwardWebhook w targetSystem (req_body req) (req_headers req) ;;
                 if success forwardResult then
                   ret (mkResult 200
                          (object_of [("success", Some (JBool true));
                                      ("forwardedTo", sys_name targetSystem);
                                      ("response", fr_data forwardResult)]))
                 else
                   ret (mkResult 500
                          (object_of [("error", str "Failed to forward webhook");
                                      ("details", fr_error forwardResult)]))
             end
       | None => ret (mkResult 400 (object_of [("error", str "No payment reference")]))
       end)
    (fun error => ret (mkResult 500 (object_of [("error", str "Webhook processing failed")]))).

Definition post_admin_systems (systems : list System) (req : Request)
  : M (list System * Response) :=
  match req_body req with
  | JNull => throw (TypeError "Cannot destructure property 'name' of 'req.body' as it is null.")
  | body =>
      let name := prop "name" body in
      let baseUrl := prop "baseUrl" body in
      let webhookPath := Server.with_default (prop "webhookPath" body)
                                             (JStr "/api/webhooks/paystack") in
      let enabled := Server.with_default (prop "enabled" body) (JBool true) in
      if negb (truthy_value name) || negb (truthy_value baseUrl) then
        ret (systems, mkResult 400 (object_of [("error", str "Name and baseUrl required")]))
      else
        let newSystem :=
          {| sys_id := None; sys_name := name; sys_baseUrl := baseUrl;
             sys_webhookPath := webhookPath; sys_healthCheck := str "/health";
             sys_enabled := enabled; sys_timeout := None |} in
        ret (systems ++ [newSystem],
             mkResult 200
               (object_of
                  [("success", Some (JBool true));
                   ("message", str "System added successfully");
                   ("system", Some (object_of
                      [("name", name); ("baseUrl", baseUrl);
                       ("webhookPath", webhookPath); ("healthCheck", str "/health");
                       ("enabled", enabled)]))]))
  end.

End PlainServer.

(** ** Sample inputs *)
Module Demo.

Definition env : Env := mkEnv (Some "sk_test_key") None.

(** An event as the provider sends it, with a space after each colon
    and comma, and the same event as [JSON.stringify] writes it. *)
Definition raw : string :=
  dq "{'event': 'charge.success', 'data': {'reference': 'REF-1'}}".
Definition canonical : string :=
  dq "{'event':'charge.success','data':{'reference':'REF-1'}}".

Definition body : json :=
  JObj [("event", JStr "charge.success"); ("data", JObj [("reference", JStr "REF-1")])].

(** The provider signs the octets it sends. *)
Definition provider_signature : string := Crypto.createHmac_sha512_hex "sk_test_key" raw.
(** The signature over the re-serialized body. *)
Definition canonical_signature : string :=
  Crypto.createHmac_sha512_hex "sk_test_key" canonical.

(** CBS owns REF-1; the other system answers 404; the forward target
    answers 200. *)
Definition world : World :=
  {| http_get := fun url _ =>
       if String.eqb url "https://cbs-ticketing.com/api/tickets/verify/REF-1"
       then Replied 200 (JObj []) else Replied 404 (JObj []);
     http_post := fun _ => Replied 200 (JObj [("received", JBool true)]);
     forward_ms := 12;
     processing_ms := 40 |}.


Definition cbs : System :=
  {| sys_id := str "cbs-ticketing";
     sys_name := str "CBS Ticketing";
     sys_baseUrl := str "https://cbs-ticketing.com";
     sys_webhookPath := str "/api/webhooks/paystack";
     sys_healthCheck := str "/health";
     sys_enabled := Some (JBool true);
     sys_timeout := num 30000 |}.

Definition request (signature : option string) : Request :=
  {| req_id := "ab12cd34";
     req_headers := match signature with
                    | Some sg => [("x-paystack-signature", sg)]
                    | None => []
                    end;
     req_rawBody := raw;
     req_body := body |}.

(** An administrative request that reuses the identifier of CBS. *)
Definition duplicate_add : Request :=
  {| req_id := "ef56ab78";
     req_headers := [];
     req_rawBody := dq "{'id':'cbs-ticketing','name':'Copy','baseUrl':'https://copy.example'}";
     req_body := JObj [("id", JStr "cbs-ticketing"); ("name", JStr "Copy");
                       ("baseUrl", JStr "https://copy.example")] |}.

End Demo.

(** ** The other routes of the instrumented server

    The health probe, the registry listing and the test forward. *)
Module ServerRoutes.
Import Server.

(** What the clock reads: [Date.now()] when the test event is built,
    and for the probe of a URL the elapsed milliseconds and the
    [toISOString()] stamp; the stamp and the elapsed time of the whole
    health check. *)
Record Clock := mkClock
  { now_ms : Z;
    probe_ms : string -> Z;
    probe_iso : string -> string;
    health_iso : string;
    health_ms : Z }.

(** *** [app.get('/health')] *)

(** One element of [systemStatuses]. *)
Record SystemStatus := mkSystemStatus
  { st_id : value;
    st_name : value;
    st_status : string;
    st_error : value;
    st_responseTime : Z;
    st_enabled : value;
    st_lastChecked : string }.

Definition health_url (system : System) : string :=
  ToString_value (sys_baseUrl system) +:+ ToString_value (sys_healthCheck system).

(** One probe up to its [await]. *)
Definition probe_issued (system : System) : list Event :=
  [ Log (mkLog "debug" "Checking system health" [("type", str "system_health_check")]);
    GetIssued (health_url system) (JNum 5000) ].

(** The same probe from the moment the request settles; the call
    gives axios no [validateStatus]. *)
Definition probe_settled (w : World) (clock : Clock) (system : System) : M SystemStatus :=
  try_catch
    (response <- axios_get_settled w (health_url system) (JNum 5000)
                   default_validateStatus ;;
     log "debug" "System health check completed" [("type", str "system_health_success")] ;;;
     ret {| st_id := sys_id system;
            st_name := sys_name system;
            st_status := "healthy";
            st_error := None;
            st_responseTime := probe_ms clock (health_url system);
            st_enabled := sys_enabled system;
            st_lastChecked := probe_iso clock (health_url system) |})
    (fun error =>
       log "warn" "System health check failed" [("type", str "system_health_error")] ;;;
       ret {| st_id := sys_id system;
              st_name := sys_name system;
              st_status := "unhealthy";
              st_error := exn_message error;
              st_responseTime := probe_ms clock (health_url system);
              st_enabled := sys_enabled system;
              st_lastChecked := probe_iso clock (health_url system) |}).

(** The entry as [res.json] writes it; the healthy literal has no
    [error] key. *)
Definition status_json (s : SystemStatus) : json :=
  object_of [ ("id", st_id s); ("name", st_name s); ("status", str (st_status s));
              ("error", st_error s); ("responseTime", num (st_responseTime s));
              ("enabled", st_enabled s); ("lastChecked", str (st_lastChecked s)) ].

(** [systemStatuses.filter(s => s.status === 'healthy').length] and
    [systemStatuses.filter(s => s.enabled).length] *)
Definition healthy_count (statuses : list SystemStatus) : Z :=
  Z.of_nat (length (List.filter (fun s => String.eqb (st_status s) "healthy") statuses)).

Definition enabled_count (statuses : list SystemStatus) : Z :=
  Z.of_nat (length (List.filter (fun s => truthy_value (st_enabled s)) statuses)).

Definition health_summary (systems : list System) (statuses : list SystemStatus)
           (clock : Clock) : json :=
  object_of [ ("total_systems", num (Z.of_nat (length systems)));
              ("enabled_systems", num (enabled_count statuses));
              ("healthy_systems", num (healthy_count statuses));
              ("unhealthy_systems", num (enabled_count statuses - healthy_count statuses));
              ("health_check_time_ms", num (health_ms clock)) ].

Definition get_health (w : World) (clock : Clock) (order : list nat)
           (systems : list System) (requestId : string) : M Response :=
  log "info" "Health check initiated"
      [("type", str "health_check_start"); ("requestId", str requestId)] ;;;
  emit (concat (map probe_issued systems)) ;;;
  systemStatuses <- Promise_all (map (probe_settled w clock) systems) order ;;
  log "info" "Health check completed" [("type", str "health_check_complete")] ;;;
  ret (mkResult 200
         (object_of [ ("dispatcher", str "healthy");
                      ("timestamp", str (health_iso clock));
                      ("requestId", str requestId);
                      ("systems", Some (JArr (map status_json systemStatuses)));
                      ("summary", Some (health_summary systems systemStatuses clock)) ])).

(** *** [app.get('/admin/systems')] *)

Definition listed (system : System) : json :=
  object_of [ ("id", sys_id system); ("name", sys_name system);
              ("baseUrl", sys_baseUrl system); ("enabled", sys_enabled system);
              ("timeout", sys_timeout system) ].

Definition get_admin_systems (systems : list System) (requestId : string) : M Response :=
  log "info" "Admin systems list requested"
      [("type", str "admin_systems_list"); ("requestId", str requestId)] ;;;
  ret (mkResult 200 (object_of [ ("success", Some (JBool true));
                                 ("systems", Some (JArr (map listed systems))) ])).

(** *** [app.post('/admin/test-webhook/:systemId')] *)

(** [s.id === systemId], the path parameter being a string. *)
Definition id_is (systemId : string) (system : System) : bool :=
  match sys_id system with
  | Some (JStr id) => String.eqb id systemId
  | _ => false
  end.

Definition testWebhook (clock : Clock) : json :=
  JObj [ ("event", JStr "charge.success");
         ("data", JObj [ ("reference", JStr ("TEST-" +:+ decimal (now_ms clock)));
                         ("amount", JNum 10000);
                         ("status", JStr "success");
                         ("currency", JStr "GHS");
                         ("customer", JObj [("email", JStr "test@example.com")]) ]) ].

Definition test_headers : list (string * string) :=
  [("x-paystack-signature", "test-signature")].

(** A [ForwardResult] as [res.json] writes it: the success literal has
    [status], [data], [responseTime], the failure literal [error],
    [status], [responseTime]. *)
Definition forward_result_json (r : ForwardResult) : json :=
  object_of [ ("success", Some (JBool (success r))); ("error", fr_error r);
              ("status", fr_status r); ("data", fr_data r);
              ("responseTime", fr_responseTime r) ].

(** The route has no [try]: an exception of [forwardWebhook] would go
    to the framework. *)
Definition post_admin_test_webhook (w : World) (clock : Clock) (systems : list System)
           (systemId : string) (requestId : string) : M Response :=
  let system := List.find (id_is systemId) systems in
  log "info" "Admin webhook test initiated"
      [("type", str "admin_webhook_test"); ("requestId", str requestId);
       ("target_system", str systemId)] ;;;
  match system with
  | None =>
      log "warn" "Admin webhook test failed - system not found"
          [("type", str "admin_webhook_test_error"); ("requestId", str requestId);
           ("system_id", str systemId)] ;;;
      ret (mkResult 404 (object_of [("error", str "System not found")]))
  | Some system =>
      result <- forwardWebhook w system (testWebhook clock) test_headers requestId ;;
      log "info" "Admin webhook test completed"
          [("type", str "admin_webhook_test_complete"); ("requestId", str requestId);
           ("target_system", str systemId);
           ("test_success", Some (JBool (success result)))] ;;;
      ret (mkResult 200 (forward_result_json result))
  end.

End ServerRoutes.

(** ** Further notions the results are stated with *)
Module Notions.

(** The characters of a ['hex'] digest. *)
Definition is_lower_hex (c : ascii) : bool :=
  let n := code c in
  ((48 <=? n) && (n <=? 57)) || ((97 <=? n) && (n <=? 102)).

Definition lower_hex (s : string) : bool :=
  forallb is_lower_hex (list_ascii_of_string s).

(** The four answers of the webhook route once the signature is
    accepted and a reference is read. *)
Definition not_found_response (reference : json) : Response :=
  mkResult 404 (object_of [("error", str "Payment reference not found in any system");
                           ("reference", Some reference)]).

Definition forwarded_response (w : World) (requestId : string) (target : System)
           (data : value) : Response :=
  mkResult 200 (object_of [("success", Some (JBool true));
                           ("requestId", str requestId);
                           ("forwardedTo", sys_name target);
                           ("processingTime", num (processing_ms w));
                           ("response", data)]).

Definition forward_failed_response (requestId : string) (details : value) : Response :=
  mkResult 500 (object_of [("error", str "Failed to forward webhook");
                           ("requestId", str requestId);
                           ("details", details)]).

Definition processing_failed_response (requestId : string) : Response :=
  mkResult 500 (object_of [("error", str "Webhook processing failed");
                           ("requestId", str requestId)]).


(** The specification's wording of a confirmed lookup, to be compared
    with [owns_reference]: the reply is 200, or 400 with a ticket
    object under [data.ticket]. *)
Definition specified_ticket_object (data : json) : bool :=
  match opt_prop "ticket" (prop "data" data) with
  | Some (JObj _) => true
  | _ => false
  end.

Definition specified_match (response : AxiosResponse) : bool :=
  (resp_status response =? 200)
  || ((resp_status response =? 400) && specified_ticket_object (resp_data response)).

(** A health probe counts as healthy when the reply is a 2xx. *)
Definition probe_healthy (w : World) (system : System) : bool :=
  match http_get w (ToString_value (sys_baseUrl system)
                    +:+ ToString_value (sys_healthCheck system)) (JNum 5000) with
  | Replied status _ => (200 <=? status) && (status <? 300)
  | TimedOut => false
  | Unreachable _ _ => false
  end.

End Notions.

(** ** More sample inputs *)
Module Samples.

Definition clock : ServerRoutes.Clock :=
  {| ServerRoutes.now_ms := 1730000000000;
     ServerRoutes.probe_ms := fun _ => 7;
     ServerRoutes.probe_iso := fun _ => "2025-10-27T03:33:20.000Z";
     ServerRoutes.health_iso := "2025-10-27T03:33:20.010Z";
     ServerRoutes.health_ms := 10 |}.

(** A registry entry that is switched off. *)
Definition dormant : System :=
  {| sys_id := str "dormant";
     sys_name := str "Dormant";
     sys_baseUrl := str "https://dormant.example";
     sys_webhookPath := str "/api/webhooks/paystack";
     sys_healthCheck := str "/health";
     sys_enabled := Some (JBool false);
     sys_timeout := None |}.

(** No system owns any reference; health probes of the dormant system
    succeed, the others are refused; the forward target answers 503. *)
Definition cold_world : World :=
  {| http_get := fun url _ =>
       if String.eqb url "https://dormant.example/health" then Replied 200 (JObj [])
       else if String.eqb url "https://cbs-ticketing.com/health" then Replied 404 (JObj [])
       else Unreachable "ECONNREFUSED" "connect ECONNREFUSED";
     http_post := fun _ => Replied 503 (JStr "busy");
     forward_ms := 5;
     processing_ms := 21 |}.



(** A verification reply whose [data.ticket] is a text, not an object. *)
Definition ticket_text_reply : json :=
  JObj [("status", JBool false); ("data", JObj [("ticket", JStr "none")])].

(** CBS answers the lookup of REF-1 with 400 and that reply. *)
Definition ticket_text_world : World :=
  {| http_get := fun url _ =>
       if String.eqb url "https://cbs-ticketing.com/api/tickets/verify/REF-1"
       then Replied 400 ticket_text_reply else Replied 404 (JObj []);
     http_post := http_post Demo.world;
     forward_ms := 12;
     processing_ms := 40 |}.

Definition no_reference_body : json := JObj [("event", JStr "charge.success"); ("data", JObj [])].

Definition request_with (signature : string) (body : json) : Request :=
  {| req_id := "ab12cd34";
     req_headers := [("x-paystack-signature", signature)];
     req_rawBody := JSON_stringify body;
     req_body := body |}.

Definition add_request (body : json) : Request :=
  {| req_id := "ef56ab78"; req_headers := []; req_rawBody := JSON_stringify body;
     req_body := body |}.

End Samples.

(** * Results *)

(** ** The digest text *)
Section Digest.
Import Crypto.

Lemma be_octets_length n x : length (be_octets n x) = n.
Proof.
  revert x. induction n as [|n IH]; intros x; simpl; [done|].
  rewrite length_app, IH. simpl. lia.
Qed.

Lemma digest_octets_length h : length (digest_octets h) = 64%nat.
Proof.
  unfold digest_octets. cbn [flat_map].
  rewrite !length_app, !be_octets_length. reflexivity.
Qed.

Lemma sha512_length msg : length (sha512 msg) = 64%nat.
Proof. unfold sha512. apply digest_octets_length. Qed.

Lemma hex_length bs : String.length (hex bs) = (2 * length bs)%nat.
Proof.
  induction bs as [|b bs IH]; [done|].
  change (hex (b :: bs))
    with (String (hex_digit (Z.shiftr b 4)) (String (hex_digit (Z.land b 15)) (hex bs))).
  cbn [String.length length]. rewrite IH. lia.
Qed.

(** The signature the server computes is 128 hexadecimal characters. *)
Lemma createHmac_hex_length key text :
  String.length (createHmac_sha512_hex key text) = 128%nat.
Proof.
  unfold createHmac_sha512_hex, hmac_sha512.
  rewrite hex_length, sha512_length. reflexivity.
Qed.

Lemma createHmac_hex_nonempty key text : createHmac_sha512_hex key text <> "".
Proof.
  intros H. pose proof (createHmac_hex_length key text) as L.
  rewrite H in L. discriminate L.
Qed.
End Digest.

#[global] Arguments Crypto.createHmac_sha512_hex : simpl never.
#[global] Arguments JSON_stringify : simpl never.
#[global] Arguments ToString : simpl never.

(** Membership in a list that is written out. *)
Ltac in_list := repeat first [apply list_elem_of_here | apply list_elem_of_further].

(** ** The computation monad *)
Section Monad.
Context {A B : Type}.

Lemma trace_bind (m : M A) (k : A -> M B) :
  trace (bind m k) =
  trace m ++ match result m with Done a => trace (k a) | _ => [] end.
Proof.
  destruct m as [tr [a| |]]; cbn; rewrite ?app_nil_r; [|done..].
  destruct (k a); reflexivity.
Qed.

Lemma result_bind (m : M A) (k : A -> M B) :
  result (bind m k) =
  match result m with
  | Done a => result (k a)
  | Threw e => Threw e
  | Waiting => Waiting
  end.
Proof. destruct m as [tr [a| |]]; cbn; [|done..]. destruct (k a); reflexivity. Qed.

Lemma bind_ret_l (a : A) (k : A -> M B) : bind (ret a) k = k a.
Proof. unfold bind, ret. by destruct (k a). Qed.

Lemma bind_throw_l (e : Exn) (k : A -> M B) : bind (throw e) k = throw e.
Proof. reflexivity. Qed.

Lemma result_try_catch (m : M A) (h : Exn -> M A) :
  result (try_catch m h) =
  match result m with
  | Threw e => result (h e)
  | r => r
  end.
Proof. destruct m as [tr [a|e|]]; cbn; [done| |done]. destruct (h e); reflexivity. Qed.

Lemma trace_try_catch (m : M A) (h : Exn -> M A) :
  trace (try_catch m h) =
  trace m ++ match result m with Threw e => trace (h e) | _ => [] end.
Proof.
  destruct m as [tr [a|e|]]; cbn; rewrite ?app_nil_r; [done| |done].
  destruct (h e); reflexivity.
Qed.
End Monad.

(** ** [Promise.all] *)
Section PromiseAll.
Context {A : Type}.
Implicit Types (tasks : list (M A)) (order : list nat)
               (slots : list (option A)) (vs : list A).

Lemma values_full slots vs :
  length slots = length vs ->
  (forall j, slots !! j <> Some None) ->
  (forall j v, slots !! j = Some (Some v) -> vs !! j = Some v) ->
  values slots = vs.
Proof.
  revert vs. induction slots as [|s slots IH]; intros [|v vs] Hlen Hfull Hval;
    try discriminate; [done|].
  destruct s as [a|]; [|by specialize (Hfull 0%nat)].
  cbn. f_equal.
  - specialize (Hval 0%nat a eq_refl). by injection Hval.
  - apply IH.
    + by injection Hlen.
    + intros j. apply (Hfull (S j)).
    + intros j w. apply (Hval (S j)).
Qed.

Lemma all_settle_complete tasks vs order slots :
  all_fulfil tasks vs ->
  NoDup order ->
  order <> [] ->
  length slots = length tasks ->
  (forall i, i ∈ order <-> slots !! i = Some None) ->
  (forall j v, slots !! j = Some (Some v) -> vs !! j = Some v) ->
  all_settle tasks order slots (length order) =
  (concat (map (task_trace tasks) order), Done vs).
Proof.
  intros Hall. revert slots.
  induction order as [|i later IH]; intros slots Hnd Hne Hlen Hholes Hval; [done|].
  assert (Hi : slots !! i = Some None) by (apply Hholes; left).
  assert (Hlt : (i < length tasks)%nat)
    by (rewrite <- Hlen; eapply lookup_lt_Some; exact Hi).
  destruct (lookup_lt_is_Some_2 tasks i Hlt) as [[tr r] Ht].
  destruct (Forall2_lookup_l _ _ _ _ _ Hall Ht) as (v & Hv & Hr).
  cbn in Hr. subst r.
  apply NoDup_cons in Hnd as [Hnotin Hnd].
  assert (Hval' : forall j w, <[i:=Some v]> slots !! j = Some (Some w) -> vs !! j = Some w).
  { intros j w. destruct (decide (i = j)) as [->|Hij].
    - rewrite list_lookup_insert_eq by (rewrite Hlen; exact Hlt).
      intros [= <-]. exact Hv.
    - rewrite list_lookup_insert_ne by done. apply Hval. }
  assert (Hholes' : forall j, j ∈ later <-> <[i:=Some v]> slots !! j = Some None).
  { intros j. destruct (decide (i = j)) as [->|Hij].
    - rewrite list_lookup_insert_eq by (rewrite Hlen; exact Hlt). split; [done|discriminate].
    - rewrite list_lookup_insert_ne by done. rewrite <- Hholes.
      rewrite elem_of_cons. split; [by right|]. intros [->|]; [done|done]. }
  cbn [all_settle]. unfold M in *. rewrite Ht, Hi.
  cbn [map concat]. unfold task_trace at 1. unfold M in *. rewrite Ht. cbn [trace fst].
  destruct later as [|i' later'].
  - cbn. rewrite app_nil_r. f_equal. f_equal.
    apply values_full; [|intros j Hj; by apply Hholes', elem_of_nil in Hj|done].
    rewrite length_insert, Hlen. eapply Forall2_length, Hall.
  - cbn [length pred].
    specialize (IH (<[i:=Some v]> slots) Hnd ltac:(done)
                   ltac:(by rewrite length_insert) Hholes' Hval').
    cbn [length] in IH. rewrite IH. reflexivity.
Qed.

(** With every promise fulfilling and each settling once,
    [Promise.all] fulfils with the values in task order, whatever the
    order of settlement, after the continuations ran in that order. *)
Lemma Promise_all_complete tasks vs order :
  all_fulfil tasks vs ->
  complete_schedule (length tasks) order ->
  Promise_all tasks order = (concat (map (task_trace tasks) order), Done vs).
Proof.
  intros Hall Hperm. unfold Promise_all, complete_schedule in *.
  destruct tasks as [|t tasks].
  { apply Forall2_nil_inv_l in Hall as ->.
    apply Permutation_nil_r in Hperm as ->. reflexivity. }
  set (ts := t :: tasks) in *.
  assert (Hlo : length order = length ts)
    by (rewrite (Permutation_length Hperm); apply length_seq).
  rewrite <- Hlo at 2.
  apply all_settle_complete; try done.
  - rewrite Hperm. apply NoDup_seq.
  - intros ->. apply Permutation_nil_l in Hperm. discriminate Hperm.
  - apply length_replicate.
  - intros i. rewrite Hperm, elem_of_seq, lookup_replicate. split; [intros; split; [done|lia]|].
    intros [_ ?]. lia.
  - intros j v. rewrite lookup_replicate. intros [? _]. discriminate.
Qed.



Lemma all_settle_no_throw tasks order slots remaining :
  (forall t, t ∈ tasks -> forall e, result t <> Threw e) ->
  forall e, result (all_settle tasks order slots remaining) <> Threw e.
Proof.
  intros Hok e. revert slots remaining.
  induction order as [|i later IH]; intros slots remaining; [done|].
  cbn [all_settle].
  destruct (tasks !! i) as [[tr r]|] eqn:Ht; [|apply IH].
  destruct (slots !! i) as [[a|]|] eqn:Hs; try (destruct r; apply IH).
  destruct r as [v|e'|].
  - destruct remaining as [|[|n]]; [| done |]; rewrite result_bind; cbn; apply IH.
  - exfalso. eapply (Hok (tr, Threw e')); [|reflexivity].
    eapply list_elem_of_lookup_2; exact Ht.
  - rewrite result_bind. cbn. apply IH.
Qed.

(** [Promise.all] rejects only if one of its promises does. *)
Lemma Promise_all_no_throw tasks order :
  (forall t, t ∈ tasks -> forall e, result t <> Threw e) ->
  forall e, result (Promise_all tasks order) <> Threw e.
Proof.
  intros Hok e. unfold Promise_all. destruct tasks as [|t tasks]; [done|].
  by apply all_settle_no_throw.
Qed.
End PromiseAll.

(** ** Resolution *)

Lemma ticket_present_spec data :
  truthy_value (opt_prop "ticket" (opt_prop "data" (Some data))) = ticket_present data.
Proof.
  unfold ticket_present.
  destruct data as [| | | | |fields]; try reflexivity.
  cbn [opt_prop]. destruct (prop "data" (JObj fields)) as [inner|]; [|reflexivity].
  destruct inner; reflexivity.
Qed.

(** The values a condition takes for false are [null], [false], [0]
    and the empty text. *)
Lemma truthy_spec v :
  truthy v = true <-> v <> JNull /\ v <> JBool false /\ v <> JNum 0 /\ v <> JStr "".
Proof.
  split.
  - intros Ht. repeat split; intros ->; discriminate Ht.
  - intros (Hn & Hb & Hz & Hs). destruct v as [|[]|n|t| |]; cbn; try done.
    + destruct (Z.eqb_spec n 0) as [->|]; done.
    + destruct (String.eqb_spec t "") as [->|]; done.
Qed.

Lemma ticket_present_cases data :
  ticket_present data = true
  <-> exists inner ticket,
        prop "data" data = Some inner /\ prop "ticket" inner = Some ticket
        /\ truthy ticket = true.
Proof.
  unfold ticket_present. split.
  - destruct (prop "data" data) as [inner|]; [|done].
    destruct (prop "ticket" inner) as [ticket|] eqn:Ht; [|done].
    intros Htruthy. by exists inner, ticket.
  - intros (inner & ticket & -> & -> & Ht). exact Ht.
Qed.

(** Where the reply holds a ticket object, the code's test holds too. *)
Lemma specified_ticket_object_present data :
  Notions.specified_ticket_object data = true -> ticket_present data = true.
Proof.
  unfold Notions.specified_ticket_object, ticket_present.
  destruct (prop "data" data) as [inner|]; [|done].
  destruct inner; try done. cbn [opt_prop].
  destruct (prop "ticket" _) as [[]|]; done.
Qed.

Lemma find_not_null_map {A} (p : A -> bool) (l : list A) :
  find_not_null (map (fun x => if p x then Some x else None) l) =
  option_map Some (List.find p l).
Proof.
  unfold find_not_null. induction l as [|x l IH]; [done|].
  cbn [map List.find]. destruct (p x); [done|]. exact IH.
Qed.

Lemma network_app tr1 tr2 : network (tr1 ++ tr2) = network tr1 ++ network tr2.
Proof. apply List.filter_app. Qed.


Section ServerResolution.
Import Server.
Variables (w : World) (paymentReference : json) (requestId : string).

Lemma search_settled_result system :
  result (search_settled w paymentReference requestId system) =
  Done (if confirms w lookup_timeout paymentReference system then Some system else None).
Proof.
  unfold search_settled, confirms, axios_get_settled, verify_url.
  destruct (http_get w _ _) as [status data| |code msg]; cbn; [|done..].
  destruct (status <? 500) eqn:Hs; cbn.
  - unfold owns_reference. cbn [resp_status resp_data].
    rewrite ticket_present_spec.
    destruct ((status =? 200) || ((status =? 400) && ticket_present data)); reflexivity.
  - assert (H2 : (status =? 200) = false) by lia.
    assert (H4 : (status =? 400) = false) by lia.
    rewrite H2, H4. reflexivity.
Qed.

Lemma search_settled_network system :
  network (trace (search_settled w paymentReference requestId system)) =
  [GetSettled (verify_url system paymentReference)].
Proof.
  unfold search_settled, axios_get_settled.
  destruct (http_get w _ _) as [status data| |code msg]; cbn; [|done..].
  destruct (status <? 500); cbn; [|done].
  destruct (owns_reference _); reflexivity.
Qed.

Lemma searches_fulfil systems :
  all_fulfil (map (search_settled w paymentReference requestId) systems)
             (map (fun s => if confirms w lookup_timeout paymentReference s
                            then Some s else None) systems).
Proof.
  unfold all_fulfil. apply Forall2_fmap, Forall_Forall2_diag, Forall_forall.
  intros s _. apply search_settled_result.
Qed.

Lemma searches_no_throw systems t :
  t ∈ map (search_settled w paymentReference requestId) systems ->
  forall e, result t <> Threw e.
Proof.
  intros Hin e. apply list_elem_of_fmap in Hin as (s & -> & _).
  rewrite search_settled_result. discriminate.
Qed.

Lemma findTargetSystem_result systems order :
  complete_schedule (length (enabled_systems systems)) order ->
  result (findTargetSystem w order systems paymentReference requestId) =
  Done (option_map Some
          (List.find (confirms w lookup_timeout paymentReference) (enabled_systems systems))).
Proof.
  intros Hsched. unfold findTargetSystem.
  rewrite !result_bind. cbn [log emit result snd].
  rewrite (Promise_all_complete _ _ order (searches_fulfil _))
    by (rewrite length_map; exact Hsched).
  cbn [result snd]. rewrite find_not_null_map.
  destruct (List.find _ _); reflexivity.
Qed.


Lemma findTargetSystem_no_throw systems order e :
  result (findTargetSystem w order systems paymentReference requestId) <> Threw e.
Proof.
  unfold findTargetSystem.
  rewrite !result_bind. cbn [log emit result snd].
  pose proof (Promise_all_no_throw
                (map (search_settled w paymentReference requestId) (enabled_systems systems))
                order (searches_no_throw _)) as Hno.
  destruct (result (Promise_all _ order)) as [results|e'|] eqn:Hr.
  - destruct (found_system _); cbn; discriminate.
  - by specialize (Hno e').
  - discriminate.
Qed.
End ServerResolution.

(** ** Forwarding *)
Section ServerForwarding.
Import Server.
Variables (w : World) (targetSystem : System) (webhookBody : json)
          (originalHeaders : list (string * string)) (requestId : string).
Hypothesis body_not_null : webhookBody <> JNull.

Let request := forward_request targetSystem webhookBody originalHeaders requestId.

Lemma read_event_reference_ok :
  read_event_reference webhookBody =
  ret (prop "event" webhookBody, opt_prop "reference" (prop "data" webhookBody)).
Proof. unfold read_event_reference. by destruct webhookBody. Qed.

Lemma forwardWebhook_network :
  network (trace (forwardWebhook w targetSystem webhookBody originalHeaders requestId)) =
  [PostIssued request; PostSettled request].
Proof.
  unfold forwardWebhook. rewrite read_event_reference_ok.
  unfold axios_post. fold request.
  destruct (settle _ _ _); reflexivity.
Qed.

Lemma forwardWebhook_accepted status data :
  http_post w request = Replied status data ->
  status < 500 ->
  result (forwardWebhook w targetSystem webhookBody originalHeaders requestId) =
  Done {| success := true; fr_status := Some (JNum status); fr_data := Some data;
          fr_error := None; fr_responseTime := Some (JNum (forward_ms w)) |}.
Proof.
  intros Hpost Hlt. unfold forwardWebhook. rewrite read_event_reference_ok.
  unfold axios_post. fold request. rewrite Hpost. cbn.
  assert (Hs : (status <? 500) = true) by lia. rewrite Hs. reflexivity.
Qed.

Lemma forwardWebhook_rejected status data :
  http_post w request = Replied status data ->
  500 <= status ->
  let e := mkAxiosError ("Request failed with status code " +:+ decimal status)
                        (status_error_code status) (Some (mkResponse status data)) in
  result (forwardWebhook w targetSystem webhookBody originalHeaders requestId) =
    Done {| success := false; fr_status := Some (JNum status); fr_data := None;
            fr_error := Some (JStr (err_message e));
            fr_responseTime := Some (JNum (forward_ms w)) |}
  /\ failure_entry targetSystem requestId e ∈ trace (forwardWebhook w targetSystem webhookBody originalHeaders requestId).
Proof.
  intros Hpost Hge e. unfold forwardWebhook. rewrite read_event_reference_ok.
  unfold axios_post. fold request. rewrite Hpost. unfold settle.
  assert (Hs : (status <? 500) = false) by lia. rewrite Hs.
  assert (H0 : (status =? 0) = false) by lia.
  cbn. rewrite H0. cbn. split; [reflexivity|].
  unfold failure_entry, e. cbn. in_list.
Qed.

Lemma forwardWebhook_no_reply :
  forall e,
  (http_post w request = TimedOut /\
     e = mkAxiosError ("timeout of " +:+ ToString (out_timeout request) +:+ "ms exceeded")
                      (Some "ECONNABORTED") None)
  \/ (exists code msg, http_post w request = Unreachable code msg /\
        e = mkAxiosError msg (Some code) None) ->
  result (forwardWebhook w targetSystem webhookBody originalHeaders requestId) =
    Done {| success := false; fr_status := Some (JStr "network_error"); fr_data := None;
            fr_error := Some (JStr (err_message e));
            fr_responseTime := Some (JNum (forward_ms w)) |}
  /\ failure_entry targetSystem requestId e ∈ trace (forwardWebhook w targetSystem webhookBody originalHeaders requestId).
Proof.
  intros e H. unfold forwardWebhook. rewrite read_event_reference_ok.
  unfold axios_post. fold request.
  destruct H as [[Hpost ->]|(code & msg & Hpost & ->)]; rewrite Hpost; cbn;
    (split; [reflexivity|]); unfold failure_entry; cbn; in_list.
Qed.
End ServerForwarding.

(** ** The traffic of a resolution *)
Section PromiseAllTrace.
Context {A : Type}.

Lemma all_settle_trace_from_tasks (tasks : list (M A)) order slots remaining e :
  e ∈ trace (all_settle tasks order slots remaining) ->
  exists t, t ∈ tasks /\ e ∈ trace t.
Proof.
  revert slots remaining. induction order as [|i later IH]; intros slots remaining.
  { cbn. intros H. by apply elem_of_nil in H. }
  cbn [all_settle].
  destruct (tasks !! i) as [[tr r]|] eqn:Ht; [|apply IH].
  assert (Hin : (tr, r) ∈ tasks) by (eapply list_elem_of_lookup_2; exact Ht).
  destruct (slots !! i) as [[a|]|] eqn:Hs; try (destruct r; apply IH).
  destruct r as [v|e'|].
  - destruct remaining as [|[|n]].
    + rewrite trace_bind. cbn. rewrite elem_of_app. intros [H|H]; [eauto|by eapply IH].
    + cbn. eauto.
    + rewrite trace_bind. cbn. rewrite elem_of_app. intros [H|H]; [eauto|by eapply IH].
  - cbn. eauto.
  - rewrite trace_bind. cbn. rewrite elem_of_app. intros [H|H]; [eauto|by eapply IH].
Qed.

Lemma Promise_all_trace_from_tasks (tasks : list (M A)) order e :
  e ∈ trace (Promise_all tasks order) -> exists t, t ∈ tasks /\ e ∈ trace t.
Proof.
  unfold Promise_all. destruct tasks as [|t tasks].
  - cbn. intros H. by apply elem_of_nil in H.
  - apply all_settle_trace_from_tasks.
Qed.
End PromiseAllTrace.

Section ServerResolutionTraffic.
Import Server.
Variables (w : World) (paymentReference : json) (requestId : string).




Lemma findTargetSystem_no_post systems order e :
  e ∈ trace (findTargetSystem w order systems paymentReference requestId) ->
  is_post e = false.
Proof.
  unfold findTargetSystem. rewrite !trace_bind. cbn [log emit trace result fst snd].
  rewrite !elem_of_app.
  intros [H|[H|[H|H]]].
  - apply list_elem_of_singleton in H as ->. reflexivity.
  - apply list_elem_of_In, in_concat in H as (tr & Htr & He).
    apply in_map_iff in Htr as (s & <- & _).
    destruct He as [<-|[<-|[]]]; reflexivity.
  - apply Promise_all_trace_from_tasks in H as (t & Ht & He).
    apply list_elem_of_fmap in Ht as (s & -> & _).
    assert (Hn : is_network e = false \/ e = GetSettled (verify_url s paymentReference)).
    { destruct (is_network e) eqn:Hne; [right|by left].
      assert (Hin : e ∈ network (trace (search_settled w paymentReference requestId s)))
        by (apply list_elem_of_In, List.filter_In; split; [by apply list_elem_of_In|done]).
      rewrite search_settled_network in Hin.
      by apply list_elem_of_singleton in Hin. }
    destruct Hn as [Hn| ->]; [|reflexivity]. by destruct e.
  - destruct (result (Promise_all _ _)) as [results| |]; [|by apply elem_of_nil in H..].
    rewrite trace_bind in H. cbn in H.
    destruct (found_system _); cbn in H; rewrite ?app_nil_r in H;
      apply list_elem_of_singleton in H as ->; reflexivity.
Qed.

End ServerResolutionTraffic.

(** ** The webhook route *)

Lemma destructure_event_data_cases body :
  (body = JNull /\ exists e, destructure_event_data body = throw e)
  \/ (body <> JNull /\ destructure_event_data body = ret (prop "event" body, prop "data" body)).
Proof. destruct body; [left; eauto|right; by split..]. Qed.

Lemma network_log entry tr : network (Log entry :: tr) = network tr.
Proof. reflexivity. Qed.

Lemma network_try_catch {A} (m : M A) (h : Exn -> M A) :
  (forall e, network (trace (h e)) = []) ->
  network (trace (try_catch m h)) = network (trace m).
Proof.
  intros Hh. rewrite trace_try_catch, network_app.
  destruct (result m); rewrite ?Hh; by rewrite app_nil_r.
Qed.

#[local] Arguments network : simpl never.

(** One statement of a route: split the trace at a bind. *)
Ltac step := rewrite trace_bind; cbn [log emit ret result snd trace fst].

Section ServerRoute.
Import Server.
Variables (env : Env) (w : World) (order : list nat) (systems : list System)
          (req : Request).

Let signature := header "x-paystack-signature" (req_headers req).
Let handled := post_webhooks_paystack env w order systems req.

Lemma handle_missing :
  truthy_value (header_value signature) = false ->
  result handled = Done (mkResult 400 (JObj [("error", JStr "Missing signature")]))
  /\ network (trace handled) = []
  /\ verified_entry (req_id req) ∉ trace handled.
Proof.
  intros Hsig. unfold handled, post_webhooks_paystack. fold signature. rewrite Hsig.
  cbn. repeat split.
  intros H. repeat (apply elem_of_cons in H as [H|H]; [discriminate H|]).
  by apply elem_of_nil in H.
Qed.

Lemma handle_invalid key :
  truthy_value (header_value signature) = true ->
  PAYSTACK_SECRET_KEY env = Some key ->
  signature <> Some (Crypto.createHmac_sha512_hex key (JSON_stringify (req_body req))) ->
  result handled = Done (mkResult 400 (JObj [("error", JStr "Invalid signature")]))
  /\ network (trace handled) = []
  /\ verified_entry (req_id req) ∉ trace handled.
Proof.
  intros Hsig Hkey Hne. unfold handled, post_webhooks_paystack. fold signature.
  rewrite Hsig, Hkey. cbn.
  rewrite bool_decide_eq_false_2 by (intros H; by apply Hne).
  cbn. repeat split.
  intros H. repeat (apply elem_of_cons in H as [H|H]; [discriminate H|]).
  by apply elem_of_nil in H.
Qed.

Lemma handle_verified key :
  PAYSTACK_SECRET_KEY env = Some key ->
  signature = Some (Crypto.createHmac_sha512_hex key (JSON_stringify (req_body req))) ->
  verified_entry (req_id req) ∈ trace handled.
Proof.
  intros Hkey Hsig. unfold handled, post_webhooks_paystack. fold signature.
  assert (Ht : truthy_value (header_value signature) = true).
  { rewrite Hsig. cbn.
    destruct (String.eqb_spec (Crypto.createHmac_sha512_hex key (JSON_stringify (req_body req))) "")
      as [He|]; [|done].
    by apply createHmac_hex_nonempty in He. }
  rewrite Ht, Hkey, Hsig. cbn [negb createHmac_hex]. rewrite bind_ret_l.
  rewrite bool_decide_eq_true_2 by done. cbn [negb].
  rewrite trace_try_catch, !trace_bind. cbn [log emit ret trace result fst snd].
  unfold verified_entry. cbn. in_list.
Qed.

(** The traffic of one dispatch, whatever the schedule: none, or the
    resolution of the reference read from the body followed, when the
    resolution returned a system, by the one forward to it. *)
Lemma handle_network :
  network (trace handled) = []
  \/ exists reference,
       opt_prop "reference" (prop "data" (req_body req)) = Some reference
       /\ network (trace handled) =
          network (trace (findTargetSystem w order systems reference (req_id req)))
          ++ match result (findTargetSystem w order systems reference (req_id req)) with
             | Done (Some (Some target)) =>
                 [PostIssued (forward_request target (req_body req) (req_headers req) (req_id req));
                  PostSettled (forward_request target (req_body req) (req_headers req) (req_id req))]
             | _ => []
             end.
Proof.
  unfold handled, post_webhooks_paystack. fold signature.
  destruct (truthy_value (header_value signature)); [|by left].
  destruct (PAYSTACK_SECRET_KEY env) as [key|]; [|by left].
  cbn [negb createHmac_hex]. rewrite bind_ret_l.
  destruct (bool_decide _); [|by left].
  destruct (destructure_event_data_cases (req_body req)) as [[Hb [e He]]|[Hb Hd]].
  { left. rewrite He. reflexivity. }
  rewrite Hd, bind_ret_l. cbn [negb fst snd].
  destruct (opt_prop "reference" (prop "data" (req_body req))) as [reference|] eqn:Href.
  2:{ by left. }
  destruct (truthy reference) eqn:Htr.
  2:{ by left. }
  right. exists reference. split; [done|].
  pose proof (forwardWebhook_network w) as Hfwd.
  cbn [negb].
  rewrite network_try_catch by done.
  do 4 step. rewrite !network_app, !network_log.
  change (network []) with (@nil Event). cbn [app]. f_equal.
  destruct (result (findTargetSystem w order systems reference (req_id req)))
    as [[[target|]|]|e|]; cbn [found_system]; try reflexivity.
  specialize (Hfwd target (req_body req) (req_headers req) (req_id req) Hb).
  do 2 step. rewrite !network_app, network_log, Hfwd.
  destruct (result (forwardWebhook w target _ _ _)) as [fr|e|]; [|reflexivity..].
  destruct (success fr); reflexivity.
Qed.
End ServerRoute.

Lemma elem_of_network e tr : e ∈ tr -> is_network e = true -> e ∈ network tr.
Proof.
  intros Hin Hn. apply list_elem_of_In, List.filter_In. split; [|done].
  by apply list_elem_of_In.
Qed.

Lemma elem_of_network_inv e tr : e ∈ network tr -> e ∈ tr.
Proof. intros H. apply list_elem_of_In, List.filter_In in H as [H _]. by apply list_elem_of_In. Qed.

(** ** The plain server *)
Section PlainServerFacts.
Variables (env : Env) (w : World) (order : list nat) (systems : list System)
          (req : Request) (key : string).
Hypothesis secret : PAYSTACK_SECRET_KEY env = Some key.

(** The plain revision answers every request whose signature header is
    not the digest of the re-serialized body, a request without the
    header included, with 400 "Invalid signature". *)
Lemma plain_rejects_other_signatures :
  header "x-paystack-signature" (req_headers req)
    <> Some (Crypto.createHmac_sha512_hex key (JSON_stringify (req_body req))) ->
  PlainServer.post_webhooks_paystack env w order systems req =
  ret (mkResult 400 (JObj [("error", JStr "Invalid signature")])).
Proof.
  intros Hne. unfold PlainServer.post_webhooks_paystack. rewrite secret.
  cbn [createHmac_hex]. rewrite bind_ret_l.
  rewrite bool_decide_eq_false_2 by (intros H; by apply Hne).
  reflexivity.
Qed.

Lemma plain_missing_signature_is_invalid :
  header "x-paystack-signature" (req_headers req) = None ->
  PlainServer.post_webhooks_paystack env w order systems req =
  ret (mkResult 400 (JObj [("error", JStr "Invalid signature")])).
Proof. intros H. apply plain_rejects_other_signatures. by rewrite H. Qed.
End PlainServerFacts.

Section PlainServerForwarding.
Variables (w : World) (targetSystem : System) (webhookBody : json)
          (originalHeaders : list (string * string)).

(** The plain revision leaves [validateStatus] to axios: only a 2xx
    reply is a success, and no forwarded-for or request-id header is
    sent. *)
Lemma plain_forward_success_only_2xx status data :
  http_post w (PlainServer.forward_request targetSystem webhookBody originalHeaders)
    = Replied status data ->
  exists forwardResult,
    result (PlainServer.forwardWebhook w targetSystem webhookBody originalHeaders)
      = Done forwardResult
    /\ PlainServer.success forwardResult = default_validateStatus status.
Proof.
  intros Hpost. unfold PlainServer.forwardWebhook, axios_post. rewrite Hpost.
  cbn. destruct (default_validateStatus status); cbn; eauto.
Qed.

Lemma plain_forward_headers :
  map fst (out_headers (PlainServer.forward_request targetSystem webhookBody originalHeaders))
  = ["Content-Type"; "X-Paystack-Signature"; "User-Agent"].
Proof. reflexivity. Qed.


End PlainServerForwarding.

Section PlainServerResolution.
Variables (w : World) (paymentReference : json).


End PlainServerResolution.

(** ** Worked inputs *)

Example sha512_abc :
  Crypto.hex (Crypto.sha512 (Crypto.octets_of "abc")) =
  "ddaf35a193617abacc417349ae20413112e6fa4e89a97ea20a9eeee64b55d39a2192992a274fc1a836ba3c23a3feebbd454d4423643ce80e2a9ac94fa54ca49f".
Proof. vm_compute. reflexivity. Qed.

(** RFC 4231, test case 2. *)
Example hmac_sha512_rfc4231_2 :
  Crypto.createHmac_sha512_hex "Jefe" "what do ya want for nothing?" =
  "164b7a7bfcf819e2e395fbe73b56e0a387bd64222e831fd610270cd7ea2505549758bf75c05a994a6d034f65f8f0e6fdcaeab1a34d4a6b4b636e070a38bce737".
Proof. vm_compute. reflexivity. Qed.

(** RFC 4231, test case 6: a key longer than the block is hashed first. *)
Example hmac_sha512_rfc4231_6 :
  Crypto.hex (Crypto.hmac_sha512 (repeat 170 131)
                (Crypto.octets_of "Test Using Larger Than Block-Size Key - Hash Key First")) =
  "80b24263c7c1a3ebb71493c1dd7be8b49b46d1f41b4aeec1121b013783f8f3526b56d037e05f2598bd0fd2215d6a1e5295e64f73f63f0aec8b915a985d786598".
Proof. vm_compute. reflexivity. Qed.

Example express_json_cases :
  express_json "" = Some (JObj [])
  /\ express_json "   " = None
  /\ express_json "17" = None
  /\ express_json (dq "{'b':1,'7':[true,null],'b':'x'}")
     = Some (JObj [("7", JArr [JBool true; JNull]); ("b", JStr "x")])
  /\ express_json (dq "{'a':1,}") = None.
Proof. repeat split; vm_compute; reflexivity. Qed.

(** Two promises, the second settling first. *)
Example Promise_all_in_task_order :
  Promise_all [([GetSettled "a"], Done 1); ([GetSettled "b"], Done 2)] [1%nat; 0%nat]
  = ([GetSettled "b"; GetSettled "a"], Done [1; 2]).
Proof. reflexivity. Qed.

Example Promise_all_waits :
  Promise_all [([GetSettled "a"], Done 1); ([GetSettled "b"], Done 2)] [1%nat]
  = ([GetSettled "b"], Waiting).
Proof. reflexivity. Qed.

Example Promise_all_rejects :
  Promise_all [([GetSettled "a"], Done 1); ([GetSettled "b"], Threw (TypeError "x"))]
              [1%nat; 0%nat]
  = ([GetSettled "b"], Threw (TypeError "x")).
Proof. reflexivity. Qed.

Example demo_body_received :
  express_json Demo.raw = Some Demo.body /\ JSON_stringify Demo.body = Demo.canonical.
Proof. split; vm_compute; reflexivity. Qed.

Example demo_duplicate_received :
  express_json (req_rawBody Demo.duplicate_add) = Some (req_body Demo.duplicate_add).
Proof. vm_compute. reflexivity. Qed.

(** ** The claims about resolution *)

(** C6 (as the code has it). A lookup is a confirmed match exactly
    when the verification endpoint answers 200, or 400 with a truthy
    value under [data.ticket] of the reply: any value there but
    [null], [false], [0] and the empty text, so every object counts,
    and so does a text, a number or [true], while an absent entry does
    not.  Every other status, a timeout and a transport failure give
    [null] for that system, and no such failure makes
    [findTargetSystem] throw.  Every reply that is a match in the
    specification's wording (a ticket object) is a match for the code;
    the replies on which the two differ are the 400 replies whose
    [data.ticket] is truthy without being an object. *)
Theorem C6_lookup_classification
  (w : World) (paymentReference : json) (requestId : string) (system : System) :
  result (Server.search_settled w paymentReference requestId system) =
    Done (match http_get w (verify_url system paymentReference)
                  (Server.lookup_timeout system) with
          | Replied status data =>
              if (status =? 200)
                 || ((status =? 400)
                     && truthy_value (opt_prop "ticket" (opt_prop "data" (Some data))))
              then Some system else None
          | TimedOut => None
          | Unreachable _ _ => None
          end)
  /\ (forall systems order e,
       result (Server.findTargetSystem w order systems paymentReference requestId) <> Threw e)
  /\ (forall data,
       truthy_value (opt_prop "ticket" (opt_prop "data" (Some data))) = true
       <-> exists inner ticket,
             prop "data" data = Some inner /\ prop "ticket" inner = Some ticket
             /\ ticket <> JNull /\ ticket <> JBool false
             /\ ticket <> JNum 0 /\ ticket <> JStr "")
  /\ (forall response, Notions.specified_match response = true -> owns_reference response = true)
  /\ (forall response,
       owns_reference response = true -> Notions.specified_match response = false ->
       resp_status response = 400
       /\ exists inner ticket,
            prop "data" (resp_data response) = Some inner
            /\ prop "ticket" inner = Some ticket
            /\ truthy ticket = true
            /\ forall fields, ticket <> JObj fields).
Proof.
  split; [|split; [|split; [|split]]].
  - rewrite search_settled_result. unfold confirms, verify_url.
    destruct (http_get w _ _); [|reflexivity..].
    by rewrite ticket_present_spec.
  - intros systems order e. apply findTargetSystem_no_throw.
  - intros data. rewrite ticket_present_spec, ticket_present_cases.
    split.
    + intros (inner & ticket & Hd & Ht & Htruthy).
      exists inner, ticket. split; [exact Hd|]. split; [exact Ht|].
      by apply truthy_spec.
    + intros (inner & ticket & Hd & Ht & Hrest).
      exists inner, ticket. split; [exact Hd|]. split; [exact Ht|].
      by apply truthy_spec.
  - intros [status data]. unfold Notions.specified_match, owns_reference.
    cbn [resp_status resp_data]. rewrite ticket_present_spec.
    destruct (status =? 200); [done|]. destruct (status =? 400); [|done].
    cbn [orb andb]. apply specified_ticket_object_present.
  - intros [status data]. unfold Notions.specified_match, owns_reference.
    cbn [resp_status resp_data]. rewrite ticket_present_spec.
    destruct (status =? 200); [done|].
    destruct (Z.eqb_spec status 400) as [->|]; [|done].
    cbn [orb andb]. intros Hcode Hspec. split; [reflexivity|].
    apply ticket_present_cases in Hcode as (inner & ticket & Hd & Ht & Htruthy).
    exists inner, ticket. repeat split; try done.
    intros fields ->. unfold Notions.specified_ticket_object in Hspec.
    rewrite Hd in Hspec. destruct inner; try done.
    cbn [opt_prop] in Hspec. by rewrite Ht in Hspec.
Qed.

(** C6 as stated fails: CBS answers the lookup 400 with a reply whose
    [data.ticket] is the text ["none"], not a ticket object, and the
    lookup counts as a confirmed match: the resolution returns CBS. *)
Lemma C6_counterexample :
  http_get Samples.ticket_text_world (verify_url Demo.cbs (JStr "REF-1"))
           (Server.lookup_timeout Demo.cbs)
    = Replied 400 Samples.ticket_text_reply
  /\ opt_prop "ticket" (prop "data" Samples.ticket_text_reply) = Some (JStr "none")
  /\ Notions.specified_match (mkResponse 400 Samples.ticket_text_reply) = false
  /\ result (Server.search_settled Samples.ticket_text_world (JStr "REF-1") "ab12cd34" Demo.cbs)
     = Done (Some Demo.cbs)
  /\ result (Server.findTargetSystem Samples.ticket_text_world [0%nat; 1%nat]
               (Server.TICKETING_SYSTEMS Demo.env) (JStr "REF-1") "ab12cd34")
     = Done (Some (Some Demo.cbs)).
Proof. repeat split; vm_compute; reflexivity. Qed.



(** C9. Two resolutions of the same reference against the same
    registry and the same downstream answers return the same system (or
    none both times), whatever the order in which their lookups settle
    and whichever requests they serve. *)
Theorem C9_resolution_idempotent
  (w : World) (systems : list System) (paymentReference : json)
  (requestId1 requestId2 : string) (order1 order2 : list nat) :
  complete_schedule (length (enabled_systems systems)) order1 ->
  complete_schedule (length (enabled_systems systems)) order2 ->
  result (Server.findTargetSystem w order1 systems paymentReference requestId1) =
  result (Server.findTargetSystem w order2 systems paymentReference requestId2)
  /\ exists found,
       result (Server.findTargetSystem w order1 systems paymentReference requestId1) = Done found.
Proof.
  intros H1 H2. rewrite !findTargetSystem_result by done. eauto.
Qed.

Lemma C9_witness :
  result (Server.findTargetSystem Demo.world [1%nat; 0%nat]
            (Server.TICKETING_SYSTEMS Demo.env) (JStr "REF-1") "ab12cd34") =
  result (Server.findTargetSystem Demo.world [0%nat; 1%nat]
            (Server.TICKETING_SYSTEMS Demo.env) (JStr "REF-1") "cd34ef56").
Proof.
  refine (proj1 (C9_resolution_idempotent
                   Demo.world (Server.TICKETING_SYSTEMS Demo.env) (JStr "REF-1")
                   "ab12cd34" "cd34ef56" [1%nat; 0%nat] [0%nat; 1%nat] _ _)).
  - vm_compute. apply perm_swap.
  - vm_compute. reflexivity.
Defined.

(** ** The claims about forwarding *)






(** ** The claims about the webhook route *)

(** C1 (as the code has it). With the secret configured, the route
    passes the signature checks exactly when the signature header is
    the lowercase hexadecimal HMAC-SHA512, under the secret, of
    [JSON.stringify(req.body)], the re-serialization of the parsed body;
    any other request is answered 400.  The digest is the digest of the
    received octets when those octets are that serialization. *)
Theorem C1_signature_over_reserialized_body
  (env : Env) (key : string) (w : World) (order : list nat) (systems : list System)
  (req : Request) :
  PAYSTACK_SECRET_KEY env = Some key ->
  let signature := header "x-paystack-signature" (req_headers req) in
  let expected := Crypto.createHmac_sha512_hex key (JSON_stringify (req_body req)) in
  let handled := Server.post_webhooks_paystack env w order systems req in
  (Server.verified_entry (req_id req) ∈ trace handled <-> signature = Some expected)
  /\ (signature <> Some expected ->
      exists reason,
        (reason = "Missing signature" \/ reason = "Invalid signature")
        /\ result handled = Done (mkResult 400 (JObj [("error", JStr reason)])))
  /\ (req_rawBody req = JSON_stringify (req_body req) ->
      (Server.verified_entry (req_id req) ∈ trace handled
       <-> signature = Some (Crypto.createHmac_sha512_hex key (req_rawBody req)))).
Proof.
  intros Hkey signature expected handled.
  assert (Hcases :
    (signature = Some expected /\ Server.verified_entry (req_id req) ∈ trace handled)
    \/ (signature <> Some expected
        /\ (Server.verified_entry (req_id req) ∉ trace handled)
        /\ exists reason,
             (reason = "Missing signature" \/ reason = "Invalid signature")
             /\ result handled = Done (mkResult 400 (JObj [("error", JStr reason)])))).
  { destruct (decide (signature = Some expected)) as [Heq|Hne].
    - left. split; [done|]. by eapply handle_verified.
    - right. split; [done|].
      destruct (truthy_value (header_value signature)) eqn:Ht.
      + destruct (handle_invalid env w order systems req key Ht Hkey Hne) as (Hr & _ & Hv).
        split; [done|]. eauto.
      + destruct (handle_missing env w order systems req Ht) as (Hr & _ & Hv).
        split; [done|]. eauto. }
  assert (Hiff : Server.verified_entry (req_id req) ∈ trace handled <-> signature = Some expected).
  { destruct Hcases as [[? ?]|(? & ? & _)]; split; intros; done. }
  split; [exact Hiff|]. split.
  - intros Hne. destruct Hcases as [[? ?]|(_ & _ & ?)]; done.
  - intros Hraw. rewrite Hraw. exact Hiff.
Qed.

Lemma C1_witness :
  Server.verified_entry "ab12cd34"
    ∈ trace (Server.post_webhooks_paystack Demo.env Demo.world [0%nat; 1%nat]
               (Server.TICKETING_SYSTEMS Demo.env)
               (Demo.request (Some Demo.canonical_signature))).
Proof.
  apply (proj1 (C1_signature_over_reserialized_body
                  Demo.env "sk_test_key" Demo.world [0%nat; 1%nat]
                  (Server.TICKETING_SYSTEMS Demo.env)
                  (Demo.request (Some Demo.canonical_signature)) eq_refl)).
  reflexivity.
Defined.

(** C1 as stated fails: the provider signs the octets it sends, the
    header equals the HMAC of those octets, and both revisions answer
    400 "Invalid signature", because they hash the re-serialized body. *)
Lemma C1_counterexample :
  let req := Demo.request (Some Demo.provider_signature) in
  received "ab12cd34" [("x-paystack-signature", Demo.provider_signature)] Demo.raw = Some req
  /\ header "x-paystack-signature" (req_headers req)
     = Some (Crypto.createHmac_sha512_hex "sk_test_key" (req_rawBody req))
  /\ result (Server.post_webhooks_paystack Demo.env Demo.world [0%nat; 1%nat]
               (Server.TICKETING_SYSTEMS Demo.env) req)
     = Done (mkResult 400 (JObj [("error", JStr "Invalid signature")]))
  /\ result (PlainServer.post_webhooks_paystack Demo.env Demo.world [0%nat; 1%nat]
               PlainServer.TICKETING_SYSTEMS req)
     = Done (mkResult 400 (JObj [("error", JStr "Invalid signature")])).
Proof. repeat split; vm_compute; reflexivity. Qed.

(** C3 (as the code has it). The instrumented route answers a request
    without the signature header, or with an empty one, 400 "Missing
    signature", whatever the secret, and sends nothing; a request whose
    header is there, not empty and not the digest is answered 400 with
    the different reason "Invalid signature".  The plain route has no
    separate check: with the secret configured it answers the request
    without the header 400 "Invalid signature", the answer it gives to
    every request whose header is not the digest; without the secret
    it answers 500. *)
Theorem C3_missing_signature_answer
  (env : Env) (w : World) (order : list nat) (systems : list System) (req : Request) :
  header "x-paystack-signature" (req_headers req) = None
  \/ header "x-paystack-signature" (req_headers req) = Some "" ->
  let first := Server.post_webhooks_paystack env w order systems req in
  let second := PlainServer.post_webhooks_paystack env w order systems req in
  let rejected (reason : string) : outcome Response :=
    Done (mkResult 400 (JObj [("error", JStr reason)])) in
  (result first = rejected "Missing signature" /\ network (trace first) = [])
  /\ (forall env' key w' order' systems' req' sent,
       PAYSTACK_SECRET_KEY env' = Some key ->
       header "x-paystack-signature" (req_headers req') = Some sent ->
       sent <> "" ->
       sent <> Crypto.createHmac_sha512_hex key (JSON_stringify (req_body req')) ->
       let first' := Server.post_webhooks_paystack env' w' order' systems' req' in
       result first' = rejected "Invalid signature"
       /\ network (trace first') = []
       /\ result first' <> result first)
  /\ (forall key,
       PAYSTACK_SECRET_KEY env = Some key ->
       result second = rejected "Invalid signature"
       /\ trace second = []
       /\ forall w' order' systems' req',
            header "x-paystack-signature" (req_headers req')
              <> Some (Crypto.createHmac_sha512_hex key (JSON_stringify (req_body req'))) ->
            result (PlainServer.post_webhooks_paystack env w' order' systems' req')
            = result second)
  /\ (PAYSTACK_SECRET_KEY env = None ->
      result second
      = Done (mkResult 500 (JObj [("error", JStr "Webhook processing failed")]))).
Proof.
  intros Hmiss first second rejected.
  destruct (handle_missing env w order systems req) as (Hr & Hn & _).
  { destruct Hmiss as [-> | ->]; reflexivity. }
  fold first in Hr, Hn.
  split; [by split|]. split; [|split].
  - intros env' key w' order' systems' req' sent Hkey Hsent Hne Hmis first'.
    destruct (handle_invalid env' w' order' systems' req' key) as (Hr' & Hn' & _).
    + rewrite Hsent. cbn. by destruct (String.eqb_spec sent "").
    + exact Hkey.
    + rewrite Hsent. intros [= ->]. done.
    + fold first' in Hr', Hn'. split; [exact Hr'|]. split; [exact Hn'|].
      rewrite Hr, Hr'. discriminate.
  - intros key Hkey.
    assert (Hne : header "x-paystack-signature" (req_headers req)
                  <> Some (Crypto.createHmac_sha512_hex key (JSON_stringify (req_body req)))).
    { destruct Hmiss as [-> | ->]; [discriminate|].
      intros Heq.
      assert (Hempty : Crypto.createHmac_sha512_hex key (JSON_stringify (req_body req)) = "")
        by congruence.
      by apply createHmac_hex_nonempty in Hempty. }
    unfold second.
    rewrite (plain_rejects_other_signatures env w order systems req key Hkey Hne).
    split; [reflexivity|]. split; [reflexivity|].
    intros w' order' systems' req' Hne'.
    by rewrite (plain_rejects_other_signatures env w' order' systems' req' key Hkey Hne').
  - intros Hkey. unfold second, PlainServer.post_webhooks_paystack. rewrite Hkey. reflexivity.
Qed.

Lemma C3_witness :
  result (Server.post_webhooks_paystack Demo.env Demo.world [0%nat; 1%nat]
            (Server.TICKETING_SYSTEMS Demo.env) (Demo.request None))
  = Done (mkResult 400 (JObj [("error", JStr "Missing signature")]))
  /\ result (Server.post_webhooks_paystack Demo.env Demo.world [0%nat; 1%nat]
               (Server.TICKETING_SYSTEMS Demo.env) (Demo.request (Some "deadbeef")))
     = Done (mkResult 400 (JObj [("error", JStr "Invalid signature")]))
  /\ result (PlainServer.post_webhooks_paystack Demo.env Demo.world [0%nat; 1%nat]
               (Server.TICKETING_SYSTEMS Demo.env) (Demo.request None))
     = Done (mkResult 400 (JObj [("error", JStr "Invalid signature")])).
Proof.
  destruct (C3_missing_signature_answer
              Demo.env Demo.world [0%nat; 1%nat]
              (Server.TICKETING_SYSTEMS Demo.env) (Demo.request None) (or_introl eq_refl))
    as ((Hmissing & _) & Hinvalid & Hplain & _).
  split; [exact Hmissing|]. split.
  - refine (proj1 (Hinvalid Demo.env "sk_test_key" Demo.world [0%nat; 1%nat]
                     (Server.TICKETING_SYSTEMS Demo.env) (Demo.request (Some "deadbeef"))
                     "deadbeef" eq_refl eq_refl _ _)).
    + discriminate.
    + apply String.eqb_neq. vm_compute. reflexivity.
  - exact (proj1 (Hplain "sk_test_key" eq_refl)).
Defined.

(** C3 as stated fails for the second copy of the route: the request
    has no signature header, and the plain route answers it 400
    "Invalid signature", the very answer it gives to a request whose
    header is there and does not match. *)
Lemma C3_counterexample :
  header "x-paystack-signature" (req_headers (Demo.request None)) = None
  /\ result (PlainServer.post_webhooks_paystack Demo.env Demo.world [0%nat; 1%nat]
               PlainServer.TICKETING_SYSTEMS (Demo.request None))
     = Done (mkResult 400 (JObj [("error", JStr "Invalid signature")]))
  /\ result (PlainServer.post_webhooks_paystack Demo.env Demo.world [0%nat; 1%nat]
               PlainServer.TICKETING_SYSTEMS (Demo.request (Some "deadbeef")))
     = result (PlainServer.post_webhooks_paystack Demo.env Demo.world [0%nat; 1%nat]
                 PlainServer.TICKETING_SYSTEMS (Demo.request None)).
Proof. repeat split; vm_compute; reflexivity. Qed.



(** The dispatch of the sample event, end to end: the two lookups, the
    replies in the order of the schedule, then the forward to CBS. *)
Example demo_dispatch_traffic :
  network (trace (Server.post_webhooks_paystack Demo.env Demo.world [1%nat; 0%nat]
                    (Server.TICKETING_SYSTEMS Demo.env)
                    (Demo.request (Some Demo.canonical_signature)))) =
  [ GetIssued "https://cbs-ticketing.com/api/tickets/verify/REF-1" (JNum 30000);
    GetIssued "https://api.cuministrymmv.org/api/tickets/verify/REF-1" (JNum 5000);
    GetSettled "https://api.cuministrymmv.org/api/tickets/verify/REF-1";
    GetSettled "https://cbs-ticketing.com/api/tickets/verify/REF-1";
    PostIssued (Server.forward_request Demo.cbs Demo.body
                  [("x-paystack-signature", Demo.canonical_signature)] "ab12cd34");
    PostSettled (Server.forward_request Demo.cbs Demo.body
                   [("x-paystack-signature", Demo.canonical_signature)] "ab12cd34") ].
Proof. vm_compute. reflexivity. Qed.




(** ** The claim about the registry *)

(** C2 (as the code has it). The append route answers 400 and leaves
    the registry as it is when [id], [name] or [baseUrl] is missing or
    falsy; otherwise it appends the new entry, without looking at the
    identifiers already registered: when the identifier is already
    there, the registry holds it twice afterwards. *)
Theorem C2_append_validates_presence_only (systems : list System) (req : Request) :
  req_body req <> JNull ->
  let id := prop "id" (req_body req) in
  let name := prop "name" (req_body req) in
  let baseUrl := prop "baseUrl" (req_body req) in
  if truthy_value id && truthy_value name && truthy_value baseUrl then
    exists newSystem response,
      result (Server.post_admin_systems systems req) = Done (systems ++ [newSystem], response)
      /\ res_status response = 200
      /\ sys_id newSystem = id /\ sys_name newSystem = name /\ sys_baseUrl newSystem = baseUrl
      /\ (id ∈ map sys_id systems -> ~ NoDup (map sys_id (systems ++ [newSystem])))
  else
    result (Server.post_admin_systems systems req)
    = Done (systems, mkResult 400 (JObj [("error", JStr "ID, name and baseUrl required")])).
Proof.
  intros Hbody id name baseUrl.
  assert (Hrun : Server.post_admin_systems systems req =
    let webhookPath := Server.with_default (prop "webhookPath" (req_body req))
                                           (JStr "/api/webhooks/paystack") in
    let enabled := Server.with_default (prop "enabled" (req_body req)) (JBool true) in
    let timeout := Server.with_default (prop "timeout" (req_body req)) (JNum 30000) in
    log "info" "Admin adding new system"
        [("type", str "admin_system_add"); ("requestId", str (req_id req));
         ("system_data", Some (object_of [("id", id); ("name", name);
                                          ("baseUrl", baseUrl); ("enabled", enabled)]))] ;;;
    if negb (truthy_value id) || negb (truthy_value name) || negb (truthy_value baseUrl) then
      log "warn" "Admin system add failed - missing required fields"
          [("type", str "admin_system_add_error"); ("requestId", str (req_id req))] ;;;
      ret (systems, mkResult 400 (object_of [("error", str "ID, name and baseUrl required")]))
    else
      let newSystem :=
        {| sys_id := id; sys_name := name; sys_baseUrl := baseUrl;
           sys_webhookPath := webhookPath; sys_healthCheck := str "/health";
           sys_enabled := enabled; sys_timeout := timeout |} in
      let systems' := systems ++ [newSystem] in
      log "info" "New system added successfully"
          [("type", str "admin_system_added"); ("requestId", str (req_id req));
           ("system_id", id); ("system_name", name);
           ("total_systems", num (Z.of_nat (length systems')))] ;;;
      ret (systems',
           mkResult 200
             (object_of
                [("success", Some (JBool true));
                 ("message", str "System added successfully");
                 ("system", Some (object_of
                    [("id", id); ("name", name); ("baseUrl", baseUrl);
                     ("webhookPath", webhookPath); ("healthCheck", str "/health");
                     ("enabled", enabled); ("timeout", timeout)]))]))).
  { unfold Server.post_admin_systems, id, name, baseUrl. by destruct (req_body req). }
  rewrite Hrun. clear Hrun. cbn zeta. rewrite !result_bind. cbn [log emit result snd].
  destruct (truthy_value id), (truthy_value name), (truthy_value baseUrl);
    cbn [negb orb andb]; rewrite ?result_bind; cbn [log emit ret result snd]; try reflexivity.
  eexists _, _. split; [reflexivity|]. cbn. repeat split.
  intros Hin Hnd. rewrite map_app in Hnd. cbn in Hnd.
  apply NoDup_app in Hnd as (_ & Hdisj & _).
  apply (Hdisj id Hin). in_list.
Qed.

Lemma C2_witness :
  exists newSystem response,
    result (Server.post_admin_systems (Server.TICKETING_SYSTEMS Demo.env) Demo.duplicate_add)
      = Done (Server.TICKETING_SYSTEMS Demo.env ++ [newSystem], response)
    /\ res_status response = 200
    /\ sys_id newSystem = Some (JStr "cbs-ticketing").
Proof.
  destruct (C2_append_validates_presence_only
              (Server.TICKETING_SYSTEMS Demo.env) Demo.duplicate_add ltac:(discriminate))
    as (newSystem & response & Hrun & Hstatus & Hid & _).
  exists newSystem, response. repeat split; assumption.
Defined.

(** C2 as stated fails: the registry the server starts with has no
    identifier twice; an append that reuses the identifier of CBS is
    answered 200, and afterwards that identifier is there twice. *)
Lemma C2_counterexample :
  received "ef56ab78" [] (req_rawBody Demo.duplicate_add) = Some Demo.duplicate_add
  /\ NoDup (map sys_id (Server.TICKETING_SYSTEMS Demo.env))
  /\ exists systems' response,
       result (Server.post_admin_systems (Server.TICKETING_SYSTEMS Demo.env) Demo.duplicate_add)
         = Done (systems', response)
       /\ res_status response = 200
       /\ ~ NoDup (map sys_id systems').
Proof.
  split; [vm_compute; reflexivity|]. split.
  - cbn. apply NoDup_cons. split; [|apply NoDup_singleton].
    intros H. apply list_elem_of_singleton in H. discriminate H.
  - eexists _, _. split; [vm_compute; reflexivity|]. split; [reflexivity|].
    cbn. intros Hnd. apply NoDup_cons in Hnd as [Hnotin _]. apply Hnotin. in_list.
Qed.


(** * Further results

    The rest of the two servers: what the webhook route answers in each
    of its states, the lookups it sends, and the health, listing, append
    and test routes. *)
Import Notions.

(** ** The digest is lower-case hexadecimal *)

Lemma hex_digit_lower n : is_lower_hex (Crypto.hex_digit n) = true.
Proof.
  unfold Crypto.hex_digit.
  destruct (Z.to_nat n) as [|[|[|[|[|[|[|[|[|[|[|[|[|[|[|[|k]]]]]]]]]]]]]]]]; reflexivity.
Qed.

Lemma hex_lower bs : lower_hex (Crypto.hex bs) = true.
Proof.
  unfold lower_hex. induction bs as [|b bs IH]; [done|].
  change (Crypto.hex (b :: bs))
    with (String (Crypto.hex_digit (Z.shiftr b 4))
            (String (Crypto.hex_digit (Z.land b 15)) (Crypto.hex bs))).
  cbn [list_ascii_of_string forallb]. by rewrite !hex_digit_lower, IH.
Qed.

Lemma createHmac_hex_lower key text :
  lower_hex (Crypto.createHmac_sha512_hex key text) = true.
Proof. apply hex_lower. Qed.

(** ** [forwardWebhook] always returns *)

Lemma forwardWebhook_null w targetSystem originalHeaders requestId :
  result (Server.forwardWebhook w targetSystem JNull originalHeaders requestId)
    = Done {| Server.success := false;
              Server.fr_status := Some (JStr "network_error");
              Server.fr_data := None;
              Server.fr_error := Some (JStr "Cannot read properties of null (reading 'event')");
              Server.fr_responseTime := Some (JNum (forward_ms w)) |}
  /\ network (trace (Server.forwardWebhook w targetSystem JNull originalHeaders requestId)) = [].
Proof. split; reflexivity. Qed.

Lemma forwardWebhook_returns w targetSystem webhookBody originalHeaders requestId :
  exists forwardResult,
    result (Server.forwardWebhook w targetSystem webhookBody originalHeaders requestId)
    = Done forwardResult.
Proof.
  assert (Hcases : webhookBody = JNull \/ webhookBody <> JNull)
    by (destruct webhookBody; [by left|by right..]).
  destruct Hcases as [->|Hbody].
  { eexists. apply forwardWebhook_null. }
  destruct (http_post w (Server.forward_request targetSystem webhookBody originalHeaders requestId))
    as [status data| |code msg] eqn:Hpost.
  - destruct (Z.lt_ge_cases status 500).
    + eexists. by eapply forwardWebhook_accepted.
    + eexists. by eapply forwardWebhook_rejected.
  - eexists. eapply forwardWebhook_no_reply; [done|]. left. by split.
  - eexists. eapply forwardWebhook_no_reply; [done|]. right. eauto.
Qed.

(** ** The states of the webhook route *)

Ltac rstep := rewrite result_bind; cbn [log emit ret result snd].

Section ServerRouteResults.
Import Server.
Variables (env : Env) (w : World) (order : list nat) (systems : list System)
          (req : Request).

Let signature := header "x-paystack-signature" (req_headers req).
Let handled := post_webhooks_paystack env w order systems req.

Lemma handle_never_throws e : result handled <> Threw e.
Proof.
  unfold handled, post_webhooks_paystack. rewrite result_try_catch.
  destruct (result _); cbn; discriminate.
Qed.

Lemma handle_no_secret :
  PAYSTACK_SECRET_KEY env = None ->
  truthy_value (header_value signature) = true ->
  result handled = Done (processing_failed_response (req_id req))
  /\ network (trace handled) = [].
Proof.
  intros Hkey Hsig. unfold handled, post_webhooks_paystack. fold signature.
  rewrite Hsig, Hkey. split; reflexivity.
Qed.

Lemma digest_header_truthy key text : truthy_value (header_value (Some (Crypto.createHmac_sha512_hex key text))) = true.
Proof.
  cbn. destruct (String.eqb_spec (Crypto.createHmac_sha512_hex key text) "") as [He|]; [|done].
  by apply createHmac_hex_nonempty in He.
Qed.

Lemma handle_null_body key :
  PAYSTACK_SECRET_KEY env = Some key ->
  signature = Some (Crypto.createHmac_sha512_hex key (JSON_stringify (req_body req))) ->
  req_body req = JNull ->
  result handled = Done (processing_failed_response (req_id req))
  /\ network (trace handled) = [].
Proof.
  intros Hkey Hsig Hbody. unfold handled, post_webhooks_paystack. fold signature.
  rewrite Hsig, digest_header_truthy, Hkey. cbn [negb createHmac_hex]. rewrite bind_ret_l.
  rewrite bool_decide_eq_true_2 by done. rewrite Hbody. split; reflexivity.
Qed.

Lemma handle_no_reference key :
  PAYSTACK_SECRET_KEY env = Some key ->
  signature = Some (Crypto.createHmac_sha512_hex key (JSON_stringify (req_body req))) ->
  req_body req <> JNull ->
  truthy_value (opt_prop "reference" (prop "data" (req_body req))) = false ->
  result handled = Done (mkResult 400 (JObj [("error", JStr "No payment reference")]))
  /\ network (trace handled) = [].
Proof.
  intros Hkey Hsig Hbody Href. unfold handled, post_webhooks_paystack. fold signature.
  rewrite Hsig, digest_header_truthy, Hkey. cbn [negb createHmac_hex]. rewrite bind_ret_l.
  rewrite bool_decide_eq_true_2 by done.
  destruct (destructure_event_data_cases (req_body req)) as [[Hb _]|[_ Hd]]; [done|].
  rewrite Hd. cbn [negb]. rewrite bind_ret_l. cbn [fst snd].
  destruct (opt_prop "reference" (prop "data" (req_body req))) as [reference|].
  - cbn in Href. rewrite Href. split; reflexivity.
  - split; reflexivity.
Qed.

Lemma handle_resolved key reference :
  PAYSTACK_SECRET_KEY env = Some key ->
  signature = Some (Crypto.createHmac_sha512_hex key (JSON_stringify (req_body req))) ->
  opt_prop "reference" (prop "data" (req_body req)) = Some reference ->
  truthy reference = true ->
  result handled =
  match result (findTargetSystem w order systems reference (req_id req)) with
  | Done found =>
      match found_system found with
      | None => Done (not_found_response reference)
      | Some target =>
          match result (forwardWebhook w target (req_body req) (req_headers req) (req_id req)) with
          | Done forwardResult =>
              Done (if success forwardResult
                    then forwarded_response w (req_id req) target (fr_data forwardResult)
                    else forward_failed_response (req_id req) (fr_error forwardResult))
          | Threw _ => Done (processing_failed_response (req_id req))
          | Waiting => Waiting
          end
      end
  | Threw _ => Done (processing_failed_response (req_id req))
  | Waiting => Waiting
  end.
Proof.
  intros Hkey Hsig Href Htr. unfold handled, post_webhooks_paystack. fold signature.
  rewrite Hsig, digest_header_truthy, Hkey. cbn [negb createHmac_hex]. rewrite bind_ret_l.
  rewrite bool_decide_eq_true_2 by done.
  destruct (destructure_event_data_cases (req_body req)) as [[Hb _]|[_ Hd]].
  { rewrite Hb in Href. discriminate Href. }
  rewrite Hd. cbn [negb]. rewrite bind_ret_l. cbn [fst snd]. rewrite Href, Htr. cbn [negb].
  rewrite result_try_catch. do 4 rstep.
  destruct (result (findTargetSystem w order systems reference (req_id req)))
    as [found|e|]; [|reflexivity..].
  destruct (found_system found) as [target|]; [|reflexivity].
  do 2 rstep.
  destruct (result (forwardWebhook w target _ _ _)) as [fr|e|]; [|reflexivity..].
  destruct (success fr); reflexivity.
Qed.

Lemma handle_resolved_network key reference :
  PAYSTACK_SECRET_KEY env = Some key ->
  signature = Some (Crypto.createHmac_sha512_hex key (JSON_stringify (req_body req))) ->
  opt_prop "reference" (prop "data" (req_body req)) = Some reference ->
  truthy reference = true ->
  network (trace handled) =
  network (trace (findTargetSystem w order systems reference (req_id req)))
  ++ match result (findTargetSystem w order systems reference (req_id req)) with
     | Done (Some (Some target)) =>
         [PostIssued (forward_request target (req_body req) (req_headers req) (req_id req));
          PostSettled (forward_request target (req_body req) (req_headers req) (req_id req))]
     | _ => []
     end.
Proof.
  intros Hkey Hsig Href Htr. unfold handled, post_webhooks_paystack. fold signature.
  rewrite Hsig, digest_header_truthy, Hkey. cbn [negb createHmac_hex]. rewrite bind_ret_l.
  rewrite bool_decide_eq_true_2 by done.
  destruct (destructure_event_data_cases (req_body req)) as [[Hb _]|[Hb Hd]].
  { rewrite Hb in Href. discriminate Href. }
  rewrite Hd. cbn [negb]. rewrite bind_ret_l. cbn [fst snd]. rewrite Href, Htr. cbn [negb].
  rewrite network_try_catch by done.
  do 4 step. rewrite !network_app, !network_log.
  change (network []) with (@nil Event). cbn [app]. f_equal.
  destruct (result (findTargetSystem w order systems reference (req_id req)))
    as [[[target|]|]|e|]; cbn [found_system]; try reflexivity.
  do 2 step.
  rewrite !network_app, network_log,
    (forwardWebhook_network w target (req_body req) (req_headers req) (req_id req) Hb).
  destruct (result (forwardWebhook w target _ _ _)) as [fr|e|]; [|reflexivity..].
  destruct (success fr); reflexivity.
Qed.
End ServerRouteResults.

(** X1. Whatever the request, the registry and the downstream
    systems do, the webhook route never lets an exception escape; and
    once every lookup has settled it answers, with status 200, 400, 404
    or 500. *)
Theorem X1_route_answers_with_one_of_four_statuses
  (env : Env) (w : World) (order : list nat) (systems : list System) (req : Request) :
  complete_schedule (length (enabled_systems systems)) order ->
  (exists response,
     result (Server.post_webhooks_paystack env w order systems req) = Done response
     /\ (res_status response = 200 \/ res_status response = 400
         \/ res_status response = 404 \/ res_status response = 500))
  /\ forall order' e,
       result (Server.post_webhooks_paystack env w order' systems req) <> Threw e.
Proof.
  intros Hsched. split; [|intros order' e; apply handle_never_throws].
  set (signature := header "x-paystack-signature" (req_headers req)).
  destruct (truthy_value (header_value signature)) eqn:Ht.
  2:{ destruct (handle_missing env w order systems req Ht) as (Hr & _).
      eexists. split; [exact Hr|]. cbn. tauto. }
  destruct (PAYSTACK_SECRET_KEY env) as [key|] eqn:Hkey.
  2:{ destruct (handle_no_secret env w order systems req Hkey Ht) as (Hr & _).
      eexists. split; [exact Hr|]. cbn. tauto. }
  destruct (decide (signature
                    = Some (Crypto.createHmac_sha512_hex key (JSON_stringify (req_body req)))))
    as [Hsig|Hsig].
  2:{ destruct (handle_invalid env w order systems req key Ht Hkey Hsig) as (Hr & _).
      eexists. split; [exact Hr|]. cbn. tauto. }
  assert (Hbody : req_body req = JNull \/ req_body req <> JNull)
    by (destruct (req_body req); [by left|by right..]).
  destruct Hbody as [Hbody|Hbody].
  { destruct (handle_null_body env w order systems req key Hkey Hsig Hbody) as (Hr & _).
    eexists. split; [exact Hr|]. cbn. tauto. }
  destruct (opt_prop "reference" (prop "data" (req_body req))) as [reference|] eqn:Href.
  2:{ destruct (handle_no_reference env w order systems req key Hkey Hsig Hbody) as (Hr & _).
      { by rewrite Href. }
      eexists. split; [exact Hr|]. cbn. tauto. }
  destruct (truthy reference) eqn:Htr.
  2:{ destruct (handle_no_reference env w order systems req key Hkey Hsig Hbody) as (Hr & _).
      { by rewrite Href. }
      eexists. split; [exact Hr|]. cbn. tauto. }
  rewrite (handle_resolved env w order systems req key reference Hkey Hsig Href Htr).
  rewrite findTargetSystem_result by exact Hsched.
  destruct (List.find _ _) as [target|]; cbn [option_map found_system].
  2:{ eexists. split; [reflexivity|]. cbn. tauto. }
  destruct (forwardWebhook_returns w target (req_body req) (req_headers req) (req_id req))
    as [fr Hfr].
  rewrite Hfr. eexists. split; [reflexivity|].
  destruct (Server.success fr); cbn; tauto.
Qed.

Lemma X1_witness :
  exists response,
    result (Server.post_webhooks_paystack Demo.env Samples.cold_world [1%nat; 0%nat]
              (Server.TICKETING_SYSTEMS Demo.env)
              (Samples.request_with Demo.canonical_signature Demo.body)) = Done response
    /\ (res_status response = 200 \/ res_status response = 400
        \/ res_status response = 404 \/ res_status response = 500).
Proof.
  refine (proj1 (X1_route_answers_with_one_of_four_statuses
                   Demo.env Samples.cold_world [1%nat; 0%nat]
                   (Server.TICKETING_SYSTEMS Demo.env)
                   (Samples.request_with Demo.canonical_signature Demo.body) _)).
  vm_compute. apply perm_swap.
Defined.

(** X2. With the secret configured, a signature header that is not
    128 characters long, or that holds a character other than [0-9] and
    [a-f] (an upper-case digest, say), is answered 400 "Invalid
    signature" without any outbound request. *)
Theorem X2_signature_must_be_128_lower_hex
  (env : Env) (key : string) (w : World) (order : list nat) (systems : list System)
  (req : Request) (sent : string) :
  PAYSTACK_SECRET_KEY env = Some key ->
  header "x-paystack-signature" (req_headers req) = Some sent ->
  sent <> "" ->
  String.length sent <> 128%nat \/ lower_hex sent = false ->
  result (Server.post_webhooks_paystack env w order systems req)
    = Done (mkResult 400 (JObj [("error", JStr "Invalid signature")]))
  /\ network (trace (Server.post_webhooks_paystack env w order systems req)) = [].
Proof.
  intros Hkey Hsent Hne Hshape.
  destruct (handle_invalid env w order systems req key) as (Hr & Hn & _); [|exact Hkey| |by split].
  - rewrite Hsent. cbn. by destruct (String.eqb_spec sent "").
  - rewrite Hsent. intros [= ->].
    destruct Hshape as [Hlen|Hhex].
    + apply Hlen, createHmac_hex_length.
    + by rewrite createHmac_hex_lower in Hhex.
Qed.

Lemma X2_witness :
  result (Server.post_webhooks_paystack Demo.env Demo.world [0%nat; 1%nat]
            (Server.TICKETING_SYSTEMS Demo.env)
            (Samples.request_with "BFCE0C29" Demo.body))
  = Done (mkResult 400 (JObj [("error", JStr "Invalid signature")])).
Proof.
  refine (proj1 (X2_signature_must_be_128_lower_hex
                   Demo.env "sk_test_key" Demo.world [0%nat; 1%nat]
                   (Server.TICKETING_SYSTEMS Demo.env)
                   (Samples.request_with "BFCE0C29" Demo.body) "BFCE0C29"
                   eq_refl eq_refl _ _)).
  - discriminate.
  - right. reflexivity.
Defined.

(** X3. While [PAYSTACK_SECRET_KEY] is not set, every request that
    carries a non-empty signature header is answered 500 "Webhook
    processing failed" and causes no outbound request: none is
    accepted. *)
Theorem X3_unset_secret_answers_500
  (env : Env) (w : World) (order : list nat) (systems : list System)
  (req : Request) (sent : string) :
  PAYSTACK_SECRET_KEY env = None ->
  header "x-paystack-signature" (req_headers req) = Some sent ->
  sent <> "" ->
  result (Server.post_webhooks_paystack env w order systems req)
    = Done (mkResult 500 (JObj [("error", JStr "Webhook processing failed");
                                ("requestId", JStr (req_id req))]))
  /\ network (trace (Server.post_webhooks_paystack env w order systems req)) = [].
Proof.
  intros Hkey Hsent Hne. apply handle_no_secret; [exact Hkey|].
  rewrite Hsent. cbn. by destruct (String.eqb_spec sent "").
Qed.

Lemma X3_witness :
  result (Server.post_webhooks_paystack (mkEnv None None) Demo.world [0%nat; 1%nat]
            (Server.TICKETING_SYSTEMS (mkEnv None None))
            (Samples.request_with Demo.canonical_signature Demo.body))
  = Done (mkResult 500 (JObj [("error", JStr "Webhook processing failed");
                              ("requestId", JStr "ab12cd34")])).
Proof.
  refine (proj1 (X3_unset_secret_answers_500
                   (mkEnv None None) Demo.world [0%nat; 1%nat]
                   (Server.TICKETING_SYSTEMS (mkEnv None None))
                   (Samples.request_with Demo.canonical_signature Demo.body)
                   Demo.canonical_signature eq_refl eq_refl _)).
  apply String.eqb_neq. vm_compute. reflexivity.
Defined.

(** X4. A correctly signed event whose [data.reference] is missing
    or falsy ([null], [0], the empty string, [false], or no [data] at
    all) is answered 400 "No payment reference"; no system is asked and
    nothing is forwarded. *)
Theorem X4_no_reference_answers_400
  (env : Env) (key : string) (w : World) (order : list nat) (systems : list System)
  (req : Request) :
  PAYSTACK_SECRET_KEY env = Some key ->
  header "x-paystack-signature" (req_headers req)
    = Some (Crypto.createHmac_sha512_hex key (JSON_stringify (req_body req))) ->
  req_body req <> JNull ->
  truthy_value (opt_prop "reference" (prop "data" (req_body req))) = false ->
  result (Server.post_webhooks_paystack env w order systems req)
    = Done (mkResult 400 (JObj [("error", JStr "No payment reference")]))
  /\ network (trace (Server.post_webhooks_paystack env w order systems req)) = [].
Proof. intros. by eapply handle_no_reference. Qed.

Lemma X4_witness :
  result (Server.post_webhooks_paystack Demo.env Demo.world [0%nat; 1%nat]
            (Server.TICKETING_SYSTEMS Demo.env)
            (Samples.request_with
               (Crypto.createHmac_sha512_hex "sk_test_key"
                  (JSON_stringify Samples.no_reference_body))
               Samples.no_reference_body))
  = Done (mkResult 400 (JObj [("error", JStr "No payment reference")])).
Proof.
  refine (proj1 (X4_no_reference_answers_400
                   Demo.env "sk_test_key" Demo.world [0%nat; 1%nat]
                   (Server.TICKETING_SYSTEMS Demo.env)
                   (Samples.request_with
                      (Crypto.createHmac_sha512_hex "sk_test_key"
                         (JSON_stringify Samples.no_reference_body))
                      Samples.no_reference_body)
                   eq_refl eq_refl _ _)).
  - discriminate.
  - reflexivity.
Defined.






(** ** The lookups of a resolution *)






(** X9. When no entry of the registry is enabled, a correctly signed
    event is answered 404 at once: no lookup is sent and the answer
    waits for nothing. *)
Theorem X9_no_enabled_system_answers_404_at_once
  (env : Env) (key : string) (w : World) (order : list nat) (systems : list System)
  (req : Request) (reference : json) :
  PAYSTACK_SECRET_KEY env = Some key ->
  header "x-paystack-signature" (req_headers req)
    = Some (Crypto.createHmac_sha512_hex key (JSON_stringify (req_body req))) ->
  opt_prop "reference" (prop "data" (req_body req)) = Some reference ->
  truthy reference = true ->
  enabled_systems systems = [] ->
  result (Server.post_webhooks_paystack env w order systems req)
    = Done (mkResult 404
              (JObj [("error", JStr "Payment reference not found in any system");
                     ("reference", reference)]))
  /\ network (trace (Server.post_webhooks_paystack env w order systems req)) = [].
Proof.
  intros Hkey Hsig Href Htr Hnone.
  assert (Hfind : Server.findTargetSystem w order systems reference (req_id req)
                  = ([Log (mkLog "info" "Starting system discovery"
                             [("type", str "system_discovery_start");
                              ("requestId", str (req_id req));
                              ("reference", Some reference);
                              ("systems_to_check", num 0)]);
                      Log (mkLog "warn" "System discovery failed - no system found"
                             [("type", str "system_discovery_failed");
                              ("requestId", str (req_id req));
                              ("reference", Some reference)])],
                     Done None)).
  { unfold Server.findTargetSystem. rewrite Hnone. reflexivity. }
  split.
  - rewrite (handle_resolved env w order systems req key reference Hkey Hsig Href Htr).
    rewrite Hfind. reflexivity.
  - rewrite (handle_resolved_network env w order systems req key reference Hkey Hsig Href Htr).
    rewrite Hfind. reflexivity.
Qed.

Lemma X9_witness :
  result (Server.post_webhooks_paystack Demo.env Demo.world [] [Samples.dormant]
            (Samples.request_with Demo.canonical_signature Demo.body))
  = Done (mkResult 404
            (JObj [("error", JStr "Payment reference not found in any system");
                   ("reference", JStr "REF-1")])).
Proof.
  refine (proj1 (X9_no_enabled_system_answers_404_at_once
                   Demo.env "sk_test_key" Demo.world [] [Samples.dormant]
                   (Samples.request_with Demo.canonical_signature Demo.body)
                   (JStr "REF-1") eq_refl _ eq_refl eq_refl eq_refl)).
  vm_compute. reflexivity.
Defined.

(** ** The registry routes *)

Lemma truthy_value_Some v : truthy_value v = true -> exists j, v = Some j /\ truthy j = true.
Proof. destruct v as [j|]; [eauto|discriminate]. Qed.

(** What an append leaves behind. *)
Lemma admin_add_cases systems req systems' response :
  result (Server.post_admin_systems systems req) = Done (systems', response) ->
  (systems' = systems /\ res_status response = 400)
  \/ exists new,
       systems' = systems ++ [new]
       /\ res_status response = 200
       /\ sys_id new = prop "id" (req_body req)
       /\ sys_name new = prop "name" (req_body req)
       /\ sys_baseUrl new = prop "baseUrl" (req_body req)
       /\ sys_enabled new = Server.with_default (prop "enabled" (req_body req)) (JBool true)
       /\ sys_timeout new = Server.with_default (prop "timeout" (req_body req)) (JNum 30000)
       /\ truthy_value (sys_id new) = true
       /\ truthy_value (sys_name new) = true
       /\ truthy_value (sys_baseUrl new) = true.
Proof.
  unfold Server.post_admin_systems.
  destruct (req_body req) as [| | | | |fields]; try discriminate;
    rewrite !result_bind; cbn [log emit result snd];
    try (cbn; intros [= <- <-]; by left).
  destruct (truthy_value (prop "id" (JObj fields))) eqn:Hid;
    destruct (truthy_value (prop "name" (JObj fields))) eqn:Hname;
    destruct (truthy_value (prop "baseUrl" (JObj fields))) eqn:Hurl;
    cbn [negb orb]; rewrite ?result_bind; cbn [log emit ret result snd];
    intros [= <- <-]; try (by left).
  right. eexists. split; [reflexivity|]. cbn. by repeat split.
Qed.

Lemma enabled_systems_app systems more :
  enabled_systems (systems ++ more) = enabled_systems systems ++ enabled_systems more.
Proof. apply List.filter_app. Qed.

Lemma find_app_Some {A} (p : A -> bool) l l' x :
  List.find p l = Some x -> List.find p (l ++ l') = Some x.
Proof.
  induction l as [|y l IH]; [discriminate|].
  cbn. destruct (p y); [done|exact IH].
Qed.

(** X10. Appending a system never changes where an event goes that
    already had an owner: a reference that resolved to a system before
    [POST /admin/systems] resolves to the same system afterwards,
    whether the request was accepted or refused and whatever the new
    entry answers to lookups. *)
Theorem X10_append_keeps_resolutions
  (w : World) (systems systems' : list System) (req : Request) (response : Response)
  (paymentReference : json) (requestId requestId' : string) (order order' : list nat)
  (owner : System) :
  result (Server.post_admin_systems systems req) = Done (systems', response) ->
  complete_schedule (length (enabled_systems systems)) order ->
  complete_schedule (length (enabled_systems systems')) order' ->
  result (Server.findTargetSystem w order systems paymentReference requestId)
    = Done (Some (Some owner)) ->
  result (Server.findTargetSystem w order' systems' paymentReference requestId')
    = Done (Some (Some owner)).
Proof.
  intros Hadd Hsched Hsched' Hbefore.
  rewrite findTargetSystem_result in Hbefore by exact Hsched.
  rewrite findTargetSystem_result by exact Hsched'.
  destruct (List.find _ (enabled_systems systems)) as [s|] eqn:Hfind; [|discriminate].
  injection Hbefore as ->.
  apply admin_add_cases in Hadd as [[-> _]|(new & -> & _)].
  - by rewrite Hfind.
  - rewrite enabled_systems_app, (find_app_Some _ _ _ _ Hfind). reflexivity.
Qed.

Lemma X10_witness :
  result (Server.findTargetSystem Demo.world [2%nat; 0%nat; 1%nat]
            (Server.TICKETING_SYSTEMS Demo.env
             ++ [ {| sys_id := str "cbs-ticketing"; sys_name := str "Copy";
                     sys_baseUrl := str "https://copy.example";
                     sys_webhookPath := str "/api/webhooks/paystack";
                     sys_healthCheck := str "/health";
                     sys_enabled := Some (JBool true);
                     sys_timeout := num 30000 |} ])
            (JStr "REF-1") "cd34ef56")
  = Done (Some (Some Demo.cbs)).
Proof.
  refine (X10_append_keeps_resolutions
            Demo.world (Server.TICKETING_SYSTEMS Demo.env) _ Demo.duplicate_add
            _ (JStr "REF-1") "ab12cd34" "cd34ef56" [1%nat; 0%nat] [2%nat; 0%nat; 1%nat]
            Demo.cbs _ _ _ _).
  - vm_compute. reflexivity.
  - vm_compute. apply perm_swap.
  - vm_compute. apply (Permutation_cons_append [0%nat; 1%nat] 2%nat).
  - vm_compute. reflexivity.
Defined.

(** X11. A system accepted by [POST /admin/systems] is shown by
    [GET /admin/systems] as the last entry, with the id, name and base
    address of the request and with [enabled] and [timeout] as given or,
    when the request has none, [true] and 30000; the entries shown
    before it are the ones shown before the append. *)
Theorem X11_appended_system_is_listed_last
  (systems systems' : list System) (req : Request) (response : Response)
  (requestId : string) :
  result (Server.post_admin_systems systems req) = Done (systems', response) ->
  res_status response = 200 ->
  exists entry,
    result (ServerRoutes.get_admin_systems systems' requestId)
      = Done (mkResult 200
                (JObj [("success", JBool true);
                       ("systems", JArr (map ServerRoutes.listed systems ++ [entry]))]))
    /\ prop "id" entry = prop "id" (req_body req)
    /\ prop "name" entry = prop "name" (req_body req)
    /\ prop "baseUrl" entry = prop "baseUrl" (req_body req)
    /\ prop "enabled" entry
       = Some (match prop "enabled" (req_body req) with Some v => v | None => JBool true end)
    /\ prop "timeout" entry
       = Some (match prop "timeout" (req_body req) with Some v => v | None => JNum 30000 end).
Proof.
  intros Hadd Hstatus.
  apply admin_add_cases in Hadd
    as [[_ H400]|(new & -> & _ & Hid & Hname & Hurl & Hen & Hto & Tid & Tname & Turl)].
  { rewrite H400 in Hstatus. discriminate Hstatus. }
  exists (ServerRoutes.listed new). split.
  - unfold ServerRoutes.get_admin_systems. rewrite result_bind. cbn [log emit ret result snd].
    rewrite map_app. reflexivity.
  - unfold ServerRoutes.listed. rewrite <- Hid, <- Hname, <- Hurl, Hen, Hto.
    apply truthy_value_Some in Tid as (i & -> & _).
    apply truthy_value_Some in Tname as (n & -> & _).
    apply truthy_value_Some in Turl as (u & -> & _).
    destruct (prop "enabled" (req_body req)), (prop "timeout" (req_body req));
      repeat split; reflexivity.
Qed.

Lemma X11_witness :
  exists entry,
    result (ServerRoutes.get_admin_systems
              (Server.TICKETING_SYSTEMS Demo.env
               ++ [ {| sys_id := str "cbs-ticketing"; sys_name := str "Copy";
                       sys_baseUrl := str "https://copy.example";
                       sys_webhookPath := str "/api/webhooks/paystack";
                       sys_healthCheck := str "/health";
                       sys_enabled := Some (JBool true);
                       sys_timeout := num 30000 |} ]) "0a1b2c3d")
      = Done (mkResult 200
                (JObj [("success", JBool true);
                       ("systems",
                         JArr (map ServerRoutes.listed (Server.TICKETING_SYSTEMS Demo.env)
                               ++ [entry]))]))
    /\ prop "id" entry = Some (JStr "cbs-ticketing")
    /\ prop "enabled" entry = Some (JBool true)
    /\ prop "timeout" entry = Some (JNum 30000).
Proof.
  destruct (X11_appended_system_is_listed_last
              (Server.TICKETING_SYSTEMS Demo.env) _ Demo.duplicate_add _ "0a1b2c3d"
              ltac:(vm_compute; reflexivity) eq_refl)
    as (entry & Hlist & Hid & _ & _ & Hen & Hto).
  exists entry. repeat split; assumption.
Defined.

(** ** The test forward *)

(** X12. [POST /admin/test-webhook/:systemId] with an id that no
    registry entry carries (entries without an [id], such as the second
    built-in one, carry none) is answered 404 "System not found" and
    sends nothing. *)
Theorem X12_test_forward_of_unknown_id
  (w : World) (clock : ServerRoutes.Clock) (systems : list System)
  (systemId requestId : string) :
  (forall s, s ∈ systems -> sys_id s <> Some (JStr systemId)) ->
  result (ServerRoutes.post_admin_test_webhook w clock systems systemId requestId)
    = Done (mkResult 404 (JObj [("error", JStr "System not found")]))
  /\ network (trace (ServerRoutes.post_admin_test_webhook w clock systems systemId requestId))
     = [].
Proof.
  intros Hnone. unfold ServerRoutes.post_admin_test_webhook.
  destruct (List.find (ServerRoutes.id_is systemId) systems) as [s|] eqn:Hfind.
  - exfalso. apply List.find_some in Hfind as [Hin His].
    apply (Hnone s); [by apply list_elem_of_In|].
    unfold ServerRoutes.id_is in His.
    destruct (sys_id s) as [[| | |id| |]|]; try discriminate His.
    by apply String.eqb_eq in His as ->.
  - split; reflexivity.
Qed.

Lemma X12_witness :
  result (ServerRoutes.post_admin_test_webhook Demo.world Samples.clock
            (Server.TICKETING_SYSTEMS Demo.env) "mmv-ticketing" "0a1b2c3d")
  = Done (mkResult 404 (JObj [("error", JStr "System not found")])).
Proof.
  refine (proj1 (X12_test_forward_of_unknown_id Demo.world Samples.clock
                   (Server.TICKETING_SYSTEMS Demo.env) "mmv-ticketing" "0a1b2c3d" _)).
  intros s Hs. cbn in Hs.
  repeat (apply elem_of_cons in Hs as [->|Hs]; [discriminate|]).
  by apply elem_of_nil in Hs.
Defined.



(** ** The health route *)
Section Health.
Import ServerRoutes.
Variables (w : World) (clock : Clock).

(** What the entry of a system says about it. *)
Let describes (s : System) (st : SystemStatus) : Prop :=
  st_id st = sys_id s /\ st_name st = sys_name s /\ st_enabled st = sys_enabled s
  /\ st_status st = (if probe_healthy w s then "healthy" else "unhealthy").

Lemma probe_settled_cases s :
  exists st, result (probe_settled w clock s) = Done st /\ describes s st.
Proof.
  unfold probe_settled, axios_get_settled, describes, probe_healthy, health_url.
  destruct (http_get w _ _) as [status data| |code msg]; cbn;
    [|eexists; split; [reflexivity|by repeat split]..].
  unfold default_validateStatus.
  destruct ((200 <=? status) && (status <? 300)); cbn;
    eexists; (split; [reflexivity|by repeat split]).
Qed.

Lemma probes_fulfil systems :
  exists statuses,
    all_fulfil (map (probe_settled w clock) systems) statuses
    /\ Forall2 describes systems statuses.
Proof.
  induction systems as [|s systems (statuses & Hall & Hdesc)].
  - exists []. split; constructor.
  - destruct (probe_settled_cases s) as (st & Hst & Hd).
    exists (st :: statuses). split; by constructor.
Qed.

Lemma health_counts systems statuses :
  Forall2 describes systems statuses ->
  enabled_count statuses = Z.of_nat (length (enabled_systems systems))
  /\ healthy_count statuses = Z.of_nat (length (List.filter (probe_healthy w) systems)).
Proof.
  unfold enabled_count, healthy_count, enabled_systems.
  induction 1 as [|s st systems statuses (_ & _ & Hen & Hst) _ [IHe IHh]]; [done|].
  cbn [List.filter]. rewrite Hen, Hst. split.
  - destruct (truthy_value (sys_enabled s)); cbn [length]; lia.
  - destruct (probe_healthy w s);
      [change (String.eqb "healthy" "healthy") with true
      |change (String.eqb "unhealthy" "healthy") with false];
      cbn [length]; lia.
Qed.

Lemma get_health_result order systems requestId :
  complete_schedule (length systems) order ->
  exists statuses,
    result (get_health w clock order systems requestId)
      = Done (mkResult 200
                (JObj [("dispatcher", JStr "healthy");
                       ("timestamp", JStr (health_iso clock));
                       ("requestId", JStr requestId);
                       ("systems", JArr (map status_json statuses));
                       ("summary", health_summary systems statuses clock)]))
    /\ Forall2 describes systems statuses.
Proof.
  intros Hsched. destruct (probes_fulfil systems) as (statuses & Hall & Hdesc).
  exists statuses. split; [|exact Hdesc].
  unfold get_health. do 2 rstep.
  rewrite result_bind, (Promise_all_complete _ _ order Hall)
    by (rewrite length_map; exact Hsched).
  reflexivity.
Qed.

Lemma get_health_never_throws order systems requestId e :
  result (get_health w clock order systems requestId) <> Threw e.
Proof.
  unfold get_health. do 2 rstep. rewrite result_bind.
  pose proof (Promise_all_no_throw (map (probe_settled w clock) systems) order) as Hno.
  destruct (result (Promise_all _ order)) as [statuses|e'|] eqn:Hr; [discriminate| |discriminate].
  exfalso. eapply Hno; [|reflexivity].
  intros t Ht e0. apply list_elem_of_fmap in Ht as (s & -> & _).
  destruct (probe_settled_cases s) as (st & -> & _). discriminate.
Qed.
End Health.

(** X14. Once every probe has settled, [GET /health] answers 200
    with [dispatcher: 'healthy'], whatever the systems answer; it lists
    one entry per registry entry, in registry order and with the
    switched-off entries included, and an entry is ['healthy'] exactly
    when the system answered its health path with a 2xx within the
    probe (a 404 or a 500 is ['unhealthy'], as is a timeout).  The route
    never throws. *)
Theorem X14_health_lists_every_system
  (w : World) (clock : ServerRoutes.Clock) (order : list nat) (systems : list System)
  (requestId : string) :
  complete_schedule (length systems) order ->
  (exists statuses,
     result (ServerRoutes.get_health w clock order systems requestId)
       = Done (mkResult 200
                 (JObj [("dispatcher", JStr "healthy");
                        ("timestamp", JStr (ServerRoutes.health_iso clock));
                        ("requestId", JStr requestId);
                        ("systems", JArr (map ServerRoutes.status_json statuses));
                        ("summary", ServerRoutes.health_summary systems statuses clock)]))
     /\ Forall2 (fun s st =>
                   ServerRoutes.st_id st = sys_id s
                   /\ ServerRoutes.st_name st = sys_name s
                   /\ ServerRoutes.st_enabled st = sys_enabled s
                   /\ ServerRoutes.st_status st
                      = (if probe_healthy w s then "healthy" else "unhealthy"))
                systems statuses)
  /\ forall order' e,
       result (ServerRoutes.get_health w clock order' systems requestId) <> Threw e.
Proof.
  intros Hsched. split; [|intros; apply get_health_never_throws].
  by apply get_health_result.
Qed.

Lemma X14_witness :
  exists statuses,
    result (ServerRoutes.get_health Samples.cold_world Samples.clock [2%nat; 0%nat; 1%nat]
              (Server.TICKETING_SYSTEMS Demo.env ++ [Samples.dormant]) "0a1b2c3d")
      = Done (mkResult 200
                (JObj [("dispatcher", JStr "healthy");
                       ("timestamp", JStr "2025-10-27T03:33:20.010Z");
                       ("requestId", JStr "0a1b2c3d");
                       ("systems", JArr (map ServerRoutes.status_json statuses));
                       ("summary",
                         ServerRoutes.health_summary
                           (Server.TICKETING_SYSTEMS Demo.env ++ [Samples.dormant])
                           statuses Samples.clock)]))
    /\ map ServerRoutes.st_status statuses = ["unhealthy"; "unhealthy"; "healthy"].
Proof.
  destruct (proj1 (X14_health_lists_every_system
                     Samples.cold_world Samples.clock [2%nat; 0%nat; 1%nat]
                     (Server.TICKETING_SYSTEMS Demo.env ++ [Samples.dormant]) "0a1b2c3d"
                     ltac:(vm_compute; apply (Permutation_cons_append [0%nat; 1%nat] 2%nat))))
    as (statuses & Hres & Hdesc).
  exists statuses. split; [exact Hres|].
  cbn in Hdesc.
  apply Forall2_cons_inv_l in Hdesc as (st1 & rest1 & (_ & _ & _ & H1) & Hdesc & ->).
  apply Forall2_cons_inv_l in Hdesc as (st2 & rest2 & (_ & _ & _ & H2) & Hdesc & ->).
  apply Forall2_cons_inv_l in Hdesc as (st3 & rest3 & (_ & _ & _ & H3) & Hdesc & ->).
  apply Forall2_nil_inv_l in Hdesc as ->.
  cbn. rewrite H1, H2, H3. reflexivity.
Defined.

(** X15. The summary of [GET /health] counts [enabled_systems] over
    the enabled entries but [healthy_systems] over all entries, and
    reports [unhealthy_systems] as their difference: a switched-off system
    that answers its probe lowers the number, which can be negative. *)
Theorem X15_health_summary_counts
  (w : World) (clock : ServerRoutes.Clock) (order : list nat) (systems : list System)
  (requestId : string) :
  complete_schedule (length systems) order ->
  let enabled := Z.of_nat (length (enabled_systems systems)) in
  let healthy := Z.of_nat (length (List.filter (probe_healthy w) systems)) in
  exists response,
    result (ServerRoutes.get_health w clock order systems requestId) = Done response
    /\ prop "summary" (res_body response)
       = Some (JObj [("total_systems", JNum (Z.of_nat (length systems)));
                     ("enabled_systems", JNum enabled);
                     ("healthy_systems", JNum healthy);
                     ("unhealthy_systems", JNum (enabled - healthy));
                     ("health_check_time_ms", JNum (ServerRoutes.health_ms clock))]).
Proof.
  intros Hsched enabled healthy.
  destruct (get_health_result w clock order systems requestId Hsched)
    as (statuses & Hres & Hdesc).
  eexists. split; [exact Hres|].
  destruct (health_counts w systems statuses Hdesc) as [He Hh].
  cbn. unfold ServerRoutes.health_summary. rewrite He, Hh. reflexivity.
Qed.

Lemma X15_witness :
  exists response,
    result (ServerRoutes.get_health Samples.cold_world Samples.clock [0%nat]
              [Samples.dormant] "0a1b2c3d") = Done response
    /\ prop "summary" (res_body response)
       = Some (JObj [("total_systems", JNum 1);
                     ("enabled_systems", JNum 0);
                     ("healthy_systems", JNum 1);
                     ("unhealthy_systems", JNum (-1));
                     ("health_check_time_ms", JNum 10)]).
Proof.
  exact (X15_health_summary_counts Samples.cold_world Samples.clock [0%nat]
           [Samples.dormant] "0a1b2c3d" ltac:(vm_compute; reflexivity)).
Defined.

(** ** The plain revision's webhook route *)
Section PlainRoute.
Variables (env : Env) (w : World) (order : list nat) (systems : list System)
          (req : Request).

End PlainRoute.

(** X16. The plain revision has no "Missing signature" answer: with
    the secret configured, every request whose signature header is not
    the digest of the re-serialized body, a request without the header
    included, is answered 400 "Invalid signature" before anything is
    sent. *)
Theorem X16_plain_route_rejects_as_invalid
  (env : Env) (key : string) (w : World) (order : list nat) (systems : list System)
  (req : Request) :
  PAYSTACK_SECRET_KEY env = Some key ->
  header "x-paystack-signature" (req_headers req)
    <> Some (Crypto.createHmac_sha512_hex key (JSON_stringify (req_body req))) ->
  result (PlainServer.post_webhooks_paystack env w order systems req)
    = Done (mkResult 400 (JObj [("error", JStr "Invalid signature")]))
  /\ trace (PlainServer.post_webhooks_paystack env w order systems req) = [].
Proof.
  intros Hkey Hne.
  rewrite (plain_rejects_other_signatures env w order systems req key Hkey Hne).
  split; reflexivity.
Qed.

Lemma X16_witness :
  result (PlainServer.post_webhooks_paystack Demo.env Demo.world [0%nat; 1%nat]
            PlainServer.TICKETING_SYSTEMS (Demo.request None))
  = Done (mkResult 400 (JObj [("error", JStr "Invalid signature")])).
Proof.
  refine (proj1 (X16_plain_route_rejects_as_invalid
                   Demo.env "sk_test_key" Demo.world [0%nat; 1%nat]
                   PlainServer.TICKETING_SYSTEMS (Demo.request None) eq_refl _)).
  discriminate.
Defined.

(** X17. In the plain revision the digest is computed before the
    header is looked at: while [PAYSTACK_SECRET_KEY] is not set, every
    request, with or without a signature header, is answered 500
    "Webhook processing failed" and nothing is sent. *)
Theorem X17_plain_route_without_secret
  (env : Env) (w : World) (order : list nat) (systems : list System) (req : Request) :
  PAYSTACK_SECRET_KEY env = None ->
  result (PlainServer.post_webhooks_paystack env w order systems req)
    = Done (mkResult 500 (JObj [("error", JStr "Webhook processing failed")]))
  /\ trace (PlainServer.post_webhooks_paystack env w order systems req) = [].
Proof.
  intros Hkey. unfold PlainServer.post_webhooks_paystack. rewrite Hkey. split; reflexivity.
Qed.

Lemma X17_witness :
  result (PlainServer.post_webhooks_paystack (mkEnv None None) Demo.world [0%nat; 1%nat]
            PlainServer.TICKETING_SYSTEMS (Demo.request None))
  = Done (mkResult 500 (JObj [("error", JStr "Webhook processing failed")])).
Proof.
  exact (proj1 (X17_plain_route_without_secret
                  (mkEnv None None) Demo.world [0%nat; 1%nat]
                  PlainServer.TICKETING_SYSTEMS (Demo.request None) eq_refl)).
Defined.



(** ** Appending, then resolving *)



(** ** Where a forward can go *)

(** X20. The webhook route forwards only to a system that is in the
    registry, is enabled, and whose lookup confirmed the reference of
    the event: every POST in the trace of a dispatch is the forward of
    the request's body to such a system. *)
Theorem X20_forward_only_to_confirmed_system
  (env : Env) (w : World) (order : list nat) (systems : list System) (req : Request)
  (r : OutRequest) :
  complete_schedule (length (enabled_systems systems)) order ->
  PostIssued r ∈ trace (Server.post_webhooks_paystack env w order systems req) ->
  exists reference target,
    opt_prop "reference" (prop "data" (req_body req)) = Some reference
    /\ target ∈ systems
    /\ truthy_value (sys_enabled target) = true
    /\ confirms w Server.lookup_timeout reference target = true
    /\ r = Server.forward_request target (req_body req) (req_headers req) (req_id req).
Proof.
  intros Hsched Hin.
  pose proof (elem_of_network _ _ Hin eq_refl) as Hnet.
  destruct (handle_network env w order systems req) as [Hnil|(reference & Href & Heq)].
  { rewrite Hnil in Hnet. by apply elem_of_nil in Hnet. }
  rewrite Heq, findTargetSystem_result in Hnet by exact Hsched.
  apply elem_of_app in Hnet as [Hfind|Hpost].
  { apply elem_of_network_inv, findTargetSystem_no_post in Hfind. discriminate Hfind. }
  destruct (List.find _ _) as [target|] eqn:Hfind; cbn in Hpost;
    [|by apply elem_of_nil in Hpost].
  apply List.find_some in Hfind as [Hen Hconf].
  apply List.filter_In in Hen as [Hsys Hon].
  exists reference, target. repeat split; try done.
  - by apply list_elem_of_In.
  - apply elem_of_cons in Hpost as [[= ->]|Hpost]; [done|].
    apply list_elem_of_singleton in Hpost. discriminate Hpost.
Qed.

Lemma X20_witness :
  exists reference target,
    opt_prop "reference" (prop "data" Demo.body) = Some reference
    /\ target ∈ Server.TICKETING_SYSTEMS Demo.env
    /\ truthy_value (sys_enabled target) = true
    /\ confirms Demo.world Server.lookup_timeout reference target = true
    /\ Server.forward_request Demo.cbs Demo.body
         [("x-paystack-signature", Demo.canonical_signature)] "ab12cd34"
       = Server.forward_request target Demo.body
           [("x-paystack-signature", Demo.canonical_signature)] "ab12cd34".
Proof.
  apply (X20_forward_only_to_confirmed_system
           Demo.env Demo.world [1%nat; 0%nat] (Server.TICKETING_SYSTEMS Demo.env)
           (Samples.request_with Demo.canonical_signature Demo.body)).
  - vm_compute. apply perm_swap.
  - vm_compute. in_list.
Defined.
